(** * HR_app.py: the Hertzsprung-Russell diagram pipeline

    A shallow embedding of [src/HR_app.py]: the Loader ([load_data]), the
    Classifier ([map_star_types]), the two axis builders and the Renderer
    ([plot_hr_diagram]), and the main script logic that chains them.

    Modelling conventions.
    - A pandas [DataFrame] is its row count and a finite map from column
      names to columns; a column ([Series]) is the list of its cells.
    - A cell is an int64, a finite float, a missing value (nan) or text. A
      finite float is held as the rational it is worth (a rational that is no
      binary64 stands for the nearest one, as pandas reads a decimal). The
      arithmetic of the script is the machine's: float products and sums round
      to binary64 (to nearest, ties to even) and overflow to an infinity,
      int64 sums wrap. In pandas the integers of a column that also holds a
      float or a missing value are floats; up to 2^53 these are the same
      numbers.
    - Python exceptions are the [Raise] case of [result].
    - A matplotlib axes is the list of the calls the script makes on it, in
      order; small readers ([xlim_of], [yscale_of], ...) pick the arguments of
      those calls. What matplotlib then draws from them is outside the model
      (so is the view a later call such as [set_xticks] may widen), except
      that it refuses a limit that is not a finite number.
    - Streamlit is the list of elements the script has put on the page. *)

From Stdlib Require Import QArith Qround Qabs Lqa.
From stdpp Require Import base gmap strings list pretty.

Set Warnings "-clear-no-such-hyp".
Open Scope Z_scope.

(** ** Cells, columns and frames *)

Inductive value :=
| VInt (z : Z)
| VFloat (q : Q)
| VNaN
| VStr (s : string).

(** A number the arithmetic gives: a cell value, or an infinity. *)
Inductive number :=
| Fin (v : value)
| Inf (negative : bool).

Coercion Fin : value >-> number.

Abbreviation Series := (list value).

Record DataFrame := { nrows : nat; cols : gmap string Series }.

(** Every column has one cell per row. *)
Definition wf_frame (df : DataFrame) : Prop :=
  map_Forall (λ _ s, length s = nrows df) (cols df).

#[global] Instance wf_frame_dec (df : DataFrame) : Decision (wf_frame df).
Proof. unfold wf_frame. apply _. Defined.

(** ** Exceptions *)

Inductive exn :=
| KeyError (k : value)
| TypeError
| ValueError
| IndexError.

Inductive result (A : Type) :=
| Ok (a : A)
| Raise (e : exn).
Arguments Ok {A} a.
Arguments Raise {A} e.

#[global] Instance result_ret : MRet result := λ A a, Ok a.
#[global] Instance result_bind : MBind result := λ A B f r,
  match r with
  | Ok a => f a
  | Raise e => Raise e
  end.

(** ** The pandas operations the script uses *)

(** [df[c]] *)
Definition getitem (df : DataFrame) (c : string) : result Series :=
  match cols df !! c with
  | Some s => Ok s
  | None => Raise (KeyError (VStr c))
  end.

(** [df[c] = s] *)
Definition setitem (df : DataFrame) (c : string) (s : Series) : DataFrame :=
  {| nrows := nrows df; cols := <[c := s]> (cols df) |}.

(** [s.map(f)]: [f] is called on every cell in order, nan cells included. *)
Fixpoint series_map (f : value → result value) (s : Series) : result Series :=
  match s with
  | [] => Ok []
  | x :: s => y ← f x; ys ← series_map f s; Ok (y :: ys)
  end.

Definition to_Q (v : value) : option Q :=
  match v with
  | VInt z => Some (inject_Z z)
  | VFloat q => Some q
  | VNaN | VStr _ => None
  end.

(** Python's [==] on cells: numbers compare by value, nan equals nothing. *)
Definition value_eqb (a b : value) : bool :=
  match a, b with
  | VStr s, VStr t => bool_decide (s = t)
  | VStr _, _ | _, VStr _ => false
  | _, _ =>
      match to_Q a, to_Q b with
      | Some p, Some q => Qeq_bool p q
      | _, _ => false
      end
  end.

Definition is_nan (v : value) : bool :=
  match v with VNaN => true | _ => false end.

(** The key identity of pandas' hash table: as [==], and nan is one key. *)
Definition value_same (a b : value) : bool :=
  value_eqb a b || (is_nan a && is_nan b).

(** [s.unique()]: distinct cells in order of first appearance. *)
Fixpoint unique_from (seen : list value) (s : Series) : Series :=
  match s with
  | [] => []
  | x :: s =>
      if existsb (value_same x) seen then unique_from seen s
      else x :: unique_from (x :: seen) s
  end.

Definition unique (s : Series) : Series := unique_from [] s.

(** [s == v], the boolean mask. *)
Definition eq_mask (s : Series) (v : value) : list bool :=
  map (λ x, value_eqb x v) s.

Fixpoint select {A} (mask : list bool) (s : list A) : list A :=
  match mask, s with
  | b :: mask, x :: s => if b then x :: select mask s else select mask s
  | _, _ => []
  end.

Definition count_true (mask : list bool) : nat :=
  length (filter (λ b, b = true) mask).

(** [df[mask]] *)
Definition loc_mask (df : DataFrame) (mask : list bool) : DataFrame :=
  {| nrows := count_true mask; cols := select mask <$> cols df |}.

(** [df.empty]: no rows or no columns. *)
Definition empty (df : DataFrame) : bool :=
  bool_decide (nrows df = 0%nat) || bool_decide (cols df = ∅).

(** [s.iloc[0]] *)
Definition iloc0 (s : Series) : result value :=
  match s with
  | x :: _ => Ok x
  | [] => Raise IndexError
  end.

(** [s.min()] and [s.max()]: nan cells are skipped, a column with nothing
    left gives nan. A text cell cannot be ordered against numbers nor take
    part in the arithmetic that follows on the same source line: either way
    the line raises [TypeError]. *)
Definition numeric (s : Series) : result (list value) :=
  if existsb (λ v, match v with VStr _ => true | _ => false end) s
  then Raise TypeError
  else Ok (filter (λ v, is_nan v = false) s).

Definition num (v : value) : Q := default 0%Q (to_Q v).

Definition value_min (a b : value) : value :=
  if Qle_bool (num a) (num b) then a else b.
Definition value_max (a b : value) : value :=
  if Qle_bool (num a) (num b) then b else a.

Definition reduce (op : value → value → value) (l : list value) : value :=
  match l with
  | [] => VNaN
  | x :: l => fold_left op l x
  end.

Definition series_min (s : Series) : result value := l ← numeric s; Ok (reduce value_min l).
Definition series_max (s : Series) : result value := l ← numeric s; Ok (reduce value_max l).

(** *** Machine arithmetic *)

(** The integer nearest to [a / b] for [b > 0], ties to the even one. *)
Definition rne (a b : Z) : Z :=
  let f := a / b in
  match 2 * (a mod b) ?= b with
  | Lt => f
  | Gt => f + 1
  | Eq => if Z.even f then f else f + 1
  end.

(** Binary64 in units of 2^-1074, its smallest positive number: every finite
    binary64 is a whole number of units with at most 53 significant bits. The
    spacing of the binary64 around [a / b >= 0] units is [grid a b] units. *)
Definition grid (a b : Z) : Z := 2 ^ Z.max 0 (Z.log2 (a / b) - 52).

(** [a / b >= 0] units rounded to 53 significant bits. *)
Definition round_units (a b : Z) : Z := rne a (b * grid a b) * grid a b.

Definition units : positive := (2 ^ 1074)%positive.

(** The binary64 nearest to [q], ties to even; from 2^1024 on, an infinity. *)
Definition round64 (q : Q) : number :=
  let n := round_units (Z.abs (Qnum q) * Z.pos units) (Z.pos (Qden q)) in
  if Z.pos units * 2 ^ 1024 <=? n then Inf (Qnum q <? 0)
  else Fin (VFloat (Z.sgn (Qnum q) * n # units)).

(** The binary64 a decimal literal of the source denotes. *)
Definition literal (f : Q) : Q :=
  match round64 f with
  | Fin (VFloat x) => x
  | _ => f
  end.

(** Float product and sum of a float with a binary64 [y]. *)
Definition fmul (x : number) (y : Q) : number :=
  match x with
  | Fin (VFloat q) => round64 (q * y)
  | other => other
  end.
Definition fadd (x : number) (y : Q) : number :=
  match x with
  | Fin (VFloat q) => round64 (q + y)
  | other => other
  end.

(** An int64 sum keeps its low 64 bits. *)
Definition wrap64 (z : Z) : Z := (z + 2 ^ 63) mod 2 ^ 64 - 2 ^ 63.

(** [v * f] for a float literal [f]: an int64 is converted to float first. *)
Definition mul_float (v : value) (f : Q) : result number :=
  match v with
  | VInt z => Ok (fmul (round64 (inject_Z z)) (literal f))
  | VFloat q => Ok (fmul (round64 q) (literal f))
  | VNaN => Ok (Fin VNaN)
  | VStr _ => Raise TypeError
  end.

(** [v + k] for an int [k]: int64 arithmetic on an int64, float on a float. *)
Definition add_int (v : value) (k : Z) : result number :=
  match v with
  | VInt z => Ok (Fin (VInt (wrap64 (z + k))))
  | VFloat q => Ok (fadd (round64 q) (inject_Z k))
  | VNaN => Ok (Fin VNaN)
  | VStr _ => Raise TypeError
  end.

(** ** The Classifier *)

Definition star_type_map : gmap Z (string * Z * string) :=
  <[0 := ("Red Dwarf", 30, "red")]>
  (<[1 := ("Brown Dwarf", 20, "maroon")]>
  (<[2 := ("White Dwarf", 25, "green")]>
  (<[3 := ("Main Sequence", 50, "blue")]>
  (<[4 := ("Giant", 80, "orange")]>
  (<[5 := ("Supergiant", 100, "purple")]> ∅))))).

(** The dictionary key a cell hashes to: an int, or a float with an integral
    value ([3.0] finds the key [3]); nan and text find nothing. *)
Definition dict_key (x : value) : option Z :=
  match x with
  | VInt z => Some z
  | VFloat q => if Qeq_bool q (inject_Z (Qfloor q)) then Some (Qfloor q) else None
  | VNaN | VStr _ => None
  end.

(** [star_type_map[x]] *)
Definition subscript (x : value) : result (string * Z * string) :=
  match dict_key x ≫= (star_type_map !!.) with
  | Some e => Ok e
  | None => Raise (KeyError x)
  end.

Definition item0 (e : string * Z * string) : value := VStr e.1.1.
Definition item1 (e : string * Z * string) : value := VInt e.1.2.
Definition item2 (e : string * Z * string) : value := VStr e.2.

Definition map_star_types (df : DataFrame) : result DataFrame :=
  st ← getitem df "Star type";
  labels ← series_map (λ x, e ← subscript x; Ok (item0 e)) st;
  let df := setitem df "Star type label" labels in
  st ← getitem df "Star type";
  sizes ← series_map (λ x, e ← subscript x; Ok (item1 e)) st;
  let df := setitem df "Marker size" sizes in
  st ← getitem df "Star type";
  colors ← series_map (λ x, e ← subscript x; Ok (item2 e)) st;
  let df := setitem df "Color" colors in
  Ok df.

(** ** Axes and figures *)

Inductive scale := Linear | Log.

Inductive call :=
| Scatter (x y : Series) (c s label : value) (alpha : Q) (edgecolors : string) (linewidth : Q)
| SetXscale (sc : scale)
| SetYscale (sc : scale)
| InvertXaxis
| InvertYaxis
| SetXlabel (text : string) (fontsize : Z)
| SetYlabel (text : string) (fontsize : Z)
| SetTitle (text : string) (fontsize pad : Z)
| Legend (title : string) (bbox_to_anchor : Q * Q) (loc : string)
| Grid (on : bool) (which ls : string) (alpha : Q)
| SetXlim (left right : value)
| SetYlim (bottom top : value)
| SetXticks (ticks : list Q)
| SetYticks (ticks : list Q)
| SetXticklabels (labels : list string)
| SetYticklabels (labels : list string)
| XMajorFormatterInt
| XMinorLogLocator (base : Q) (subs : list Z)
| YMinorLogLocator (base : Q) (subs : list Z)
| TickParams (which : string) (length : Z).

Record Figure := {
  figsize : Z * Z;
  ax : list call;              (* the primary axes *)
  ax2 : list call;             (* ax.twiny(): the spectral class axis *)
  ax3 : list call;             (* ax.twinx(): the luminosity axis *)
  tight_layout : list Q
}.

Definition finite (v : value) : bool :=
  match v with
  | VInt _ | VFloat _ => true
  | VNaN | VStr _ => false
  end.

(** matplotlib refuses a limit that is not a finite number. *)
Definition set_xlim (left right : number) : result call :=
  match left, right with
  | Fin l, Fin r =>
      if finite l && finite r then Ok (SetXlim l r) else Raise ValueError
  | _, _ => Raise ValueError
  end.
Definition set_ylim (bottom top : number) : result call :=
  match bottom, top with
  | Fin b, Fin t =>
      if finite b && finite t then Ok (SetYlim b t) else Raise ValueError
  | _, _ => Raise ValueError
  end.

(** [range(lo, hi)], also [np.arange(lo, hi)] on ints. *)
Definition range (lo hi : Z) : list Z := seqZ lo (hi - lo).

(** ** The axis builders *)

Definition create_spectral_class_axis (temp_range : number * number) : result (list call) :=
  let spectral_classes := ["O"; "B"; "A"; "F"; "G"; "K"; "M"] in
  let temp_bounds := [40000; 30000; 10000; 7500; 6000; 3700; 2000]%Q in
  lim ← set_xlim temp_range.1 temp_range.2;
  Ok [SetXscale Log;
      lim;
      SetXticks temp_bounds;
      SetXticklabels spectral_classes;
      SetXlabel "Spectral Class" 12;
      InvertXaxis].

Definition create_luminosity_axis (mv_range : number * number) : result (list call) :=
  let l_min := VFloat (1 # 1000000) in
  let l_max := VFloat 1000000 in
  lim ← set_ylim l_min l_max;
  let l_ticks := (λ i, Qpower 10 i) <$> range (-6) 7 in
  let l_labels := (λ i, "$10^{" +:+ pretty i +:+ "}$") <$> range (-6) 7 in
  Ok [SetYscale Log;
      lim;
      SetYticks l_ticks;
      SetYticklabels l_labels;
      YMinorLogLocator 10 (range 1 10);
      SetYlabel "Luminosity (L/Lo)" 12].

(** ** The Renderer *)

Fixpoint for_each {A} (body : A → result (list call)) (l : list A) : result (list call) :=
  match l with
  | [] => Ok []
  | a :: l => cs ← body a; rest ← for_each body l; Ok (cs ++ rest)
  end.

(** The body of the loop over (label, color) pairs. *)
Definition scatter_group (df : DataFrame) (sc : value * value) : result (list call) :=
  let '(s_type, color) := sc in
  labels ← getitem df "Star type label";
  let subset := loc_mask df (eq_mask labels s_type) in
  if empty subset then Ok []
  else
    x ← getitem subset "Temperature (K)";
    y ← getitem subset "Absolute magnitude(Mv)";
    sizes ← getitem subset "Marker size";
    s ← iloc0 sizes;
    Ok [Scatter x y color s s_type (7 # 10) "black" (1 # 2)].

Definition scatter_loop (df : DataFrame) : result (list call) :=
  labels ← getitem df "Star type label";
  colors ← getitem df "Color";
  for_each (scatter_group df) (zip (unique labels) (unique colors)).

Definition plot_hr_diagram (df : DataFrame) : result Figure :=
  series ← scatter_loop df;
  let decor :=
    [SetXscale Log;
     InvertXaxis;
     InvertYaxis;
     SetXlabel "Temperature (K)" 12;
     SetYlabel "Absolute Magnitude (Mv)" 12;
     SetTitle "Hertzsprung-Russell Diagram" 14 30;
     Legend "Stellar Classification" (105 # 100, 1)%Q "upper left";
     Grid true "both" "--" (6 # 10)] in
  temp ← getitem df "Temperature (K)";
  lo ← series_min temp; temp_min ← mul_float lo (9 # 10);
  hi ← series_max temp; temp_max ← mul_float hi (11 # 10);
  mv ← getitem df "Absolute magnitude(Mv)";
  lo ← series_min mv; mv_min ← add_int lo (-1);
  hi ← series_max mv; mv_max ← add_int hi 1;
  xlim ← set_xlim temp_max temp_min;
  ylim ← set_ylim mv_max mv_min;
  let major_ticks := [40000; 30000; 20000; 10000; 7500; 6000; 5000; 3000]%Q in
  let ticks :=
    [SetXticks major_ticks;
     XMajorFormatterInt;
     XMinorLogLocator 10 (range 2 10);
     TickParams "minor" 4] in
  spectral ← create_spectral_class_axis (temp_min, temp_max);
  luminosity ← create_luminosity_axis (mv_min, mv_max);
  Ok {| figsize := (14, 10);
        ax := series ++ decor ++ [xlim; ylim] ++ ticks;
        ax2 := spectral;
        ax3 := luminosity;
        tight_layout := [0; 0; 1; 96 # 100]%Q |}.

(** *** Reading a list of calls *)

Definition is_scatter (c : call) : bool :=
  match c with Scatter _ _ _ _ _ _ _ _ => true | _ => false end.

(** The scatter series drawn, in drawing order. *)
Definition series_of (calls : list call) : list call := filter (λ c, is_scatter c = true) calls.

(** The limits last asked for with [set_xlim] / [set_ylim], as (first
    argument, second argument). *)
Definition xlim_of (calls : list call) : option (value * value) :=
  fold_left (λ lim c, match c with SetXlim l r => Some (l, r) | _ => lim end) calls None.
Definition ylim_of (calls : list call) : option (value * value) :=
  fold_left (λ lim c, match c with SetYlim b t => Some (b, t) | _ => lim end) calls None.

(** An axis is linear until a call says otherwise. *)
Definition yscale_of (calls : list call) : scale :=
  fold_left (λ sc c, match c with SetYscale s => s | _ => sc end) calls Linear.

(** The major ticks, their labels and the minor locator last asked for on the
    vertical axis. *)
Definition yticks_of (calls : list call) : list Q :=
  fold_left (λ t c, match c with SetYticks l => l | _ => t end) calls [].
Definition yticklabels_of (calls : list call) : list string :=
  fold_left (λ t c, match c with SetYticklabels l => l | _ => t end) calls [].
Definition yminor_of (calls : list call) : option (Q * list Z) :=
  fold_left (λ t c, match c with YMinorLogLocator b s => Some (b, s) | _ => t end) calls None.

(** ** The page and the main script *)

Inductive element :=
| StError (msg : string)
| StInfo (msg : string)
| StPyplot (fig : Figure).

(** The functions of the pipeline, as entered by the main script. *)
Inductive stage := LoadData | MapStarTypes | PlotHrDiagram.

Record session := { page : list element; entered : list stage }.

(** A script step: it may raise, and it leaves the session as it was when it
    returned or raised. *)
Definition App (A : Type) : Type := session → result A * session.

Definition app_ret {A} (a : A) : App A := λ s, (Ok a, s).
Definition app_bind {A B} (m : App A) (k : A → App B) : App B := λ s,
  match m s with
  | (Ok a, s') => k a s'
  | (Raise e, s') => (Raise e, s')
  end.

Declare Scope app_scope.
Delimit Scope app_scope with app.
Notation "x ←' m ; k" := (app_bind m (λ x, k))
  (at level 20, m at level 100, k at level 200, right associativity) : app_scope.
Notation "m ;;' k" := (app_bind m (λ _, k))
  (at level 100, k at level 200, right associativity) : app_scope.

Definition lift {A} (r : result A) : App A := λ s, (r, s).
Definition show (e : element) : App unit := λ s,
  (Ok tt, {| page := page s ++ [e]; entered := entered s |}).
Definition enter (st : stage) : App unit := λ s,
  (Ok tt, {| page := page s; entered := entered s ++ [st] |}).

Definition required_columns : list string :=
  ["Temperature (K)"; "Luminosity(L/Lo)"; "Absolute magnitude(Mv)"; "Star type"; "Spectral Class"].

(** [col in df.columns] *)
Definition has_column (df : DataFrame) (col : string) : bool :=
  bool_decide (is_Some (cols df !! col)).

Section Script.

(** The upload and pandas' reader: [read_csv] gives the parsed frame, or the
    text of the exception it raised. *)
Variable UploadedFile : Type.
Variable read_csv : UploadedFile → string + DataFrame.

Definition load_data (uploaded_file : UploadedFile) : App (option DataFrame) :=
  match read_csv uploaded_file with
  | inr df =>
      if negb (forallb (has_column df) required_columns) then
        (show (StError "Dataset is missing one or more required columns.") ;;'
         app_ret None)%app
      else app_ret (Some df)
  | inl e =>
      (show (StError ("Error loading data: " +:+ e)) ;;'
       app_ret None)%app
  end.

Definition main (uploaded_file : option UploadedFile) : App unit :=
  match uploaded_file with
  | Some f =>
      (enter LoadData ;;'
       df ←' load_data f;
       match df with
       | Some df =>
           enter MapStarTypes ;;'
           df ←' lift (map_star_types df);
           enter PlotHrDiagram ;;'
           fig ←' lift (plot_hr_diagram df);
           show (StPyplot fig)
       | None => app_ret tt
       end)%app
  | None => show (StInfo "Please upload a CSV file to generate the H-R diagram.")
  end.

End Script.

Definition fresh : session := {| page := []; entered := [] |}.

(** ** The specification's side *)

(** The fixed six-entry table, as the specification prints it. *)
Definition fixed_table (code : Z) : option (string * Z * string) :=
  match code with
  | 0 => Some ("Red Dwarf", 30, "red")
  | 1 => Some ("Brown Dwarf", 20, "maroon")
  | 2 => Some ("White Dwarf", 25, "green")
  | 3 => Some ("Main Sequence", 50, "blue")
  | 4 => Some ("Giant", 80, "orange")
  | 5 => Some ("Supergiant", 100, "purple")
  | _ => None
  end.

(** A cell that carries the star-type code [c]. *)
Definition has_code (v : value) (c : Z) : Prop := dict_key v = Some c.

#[global] Instance Q_eq_dec : EqDecision Q.
Proof. solve_decision. Defined.
#[global] Instance value_eq_dec : EqDecision value.
Proof. solve_decision. Defined.

(** The cells of column [col] on the rows whose label is [l]. *)
Definition rows_with (l : value) (labels col : Series) : Series :=
  (filter (λ p, p.1 = l) (zip labels col)).*2.

(** [m] is a largest (smallest) number of the column. *)
Definition is_max (m : value) (s : Series) : Prop :=
  m ∈ s ∧ ∀ v, v ∈ s → (num v <= num m)%Q.
Definition is_min (m : value) (s : Series) : Prop :=
  m ∈ s ∧ ∀ v, v ∈ s → (num m <= num v)%Q.

(** ** Binary64 magnitudes *)

(** 2^-53, the relative error of a rounding in the normal range. *)
Definition eps : Q := 1 # 9007199254740992.

(** Half of the smallest positive binary64, 2^-1074. *)
Definition half_unit : Q := 1 # (2 * units).

(** The smallest positive normal binary64, 2^-1022. *)
Definition tiny : Q := 1 # 2 ^ 1022.

(** 1.7e308, below the largest binary64 (about 1.797e308). *)
Definition huge : Z := 17 * 10 ^ 307.
Definition hugeQ : Q := inject_Z huge.

(** 1e308 and 1e15. *)
Definition big : Q := inject_Z (10 ^ 308).
Definition small : Q := inject_Z (10 ^ 15).

(** The float a cell is worth. *)
Definition cell (v : value) : number :=
  match v with
  | VInt z => round64 (inject_Z z)
  | VFloat q => round64 q
  | other => Fin other
  end.

(** The number in the cell is of magnitude at most [B]. *)
Definition bounded (B : Q) (v : value) : Prop := (- B <= num v)%Q ∧ (num v <= B)%Q.

(** ** Sample uploads *)

Definition frame (n : nat) (temp lum mv st cls : Series) : DataFrame :=
  {| nrows := n;
     cols := <["Temperature (K)" := temp]>
             (<["Luminosity(L/Lo)" := lum]>
             (<["Absolute magnitude(Mv)" := mv]>
             (<["Star type" := st]>
             (<["Spectral Class" := cls]> ∅)))) |}.

Definition stars : DataFrame :=
  frame 3 [VInt 5778; VInt 3000; VInt 9000]
          [VFloat 1; VFloat (1 # 2); VFloat 30]
          [VFloat (483 # 100); VFloat 10; VFloat 1]
          [VInt 3; VInt 0; VInt 3]
          [VStr "G"; VStr "M"; VStr "A"].

(** [stars] with other luminosities. *)
Definition stars_dimmed : DataFrame :=
  frame 3 [VInt 5778; VInt 3000; VInt 9000]
          [VFloat 2; VFloat 7; VStr "?"]
          [VFloat (483 # 100); VFloat 10; VFloat 1]
          [VInt 3; VInt 0; VInt 3]
          [VStr "G"; VStr "M"; VStr "A"].

(** One row whose star type is 6. *)
Definition type_six : DataFrame :=
  frame 1 [VInt 5778] [VFloat 1] [VFloat (483 # 100)] [VInt 6] [VStr "G"].

(** The header row and nothing under it. *)
Definition header_only : DataFrame := frame 0 [] [] [] [] [].



(** One star whose magnitude is the smallest int64. *)
Definition star_int64_min : DataFrame :=
  frame 1 [VInt 5778] [VFloat 1] [VInt (- 2 ^ 63)] [VInt 3] [VStr "G"].

(** A file without the 'Star type' column. *)
Definition no_star_type : DataFrame :=
  {| nrows := 1;
     cols := <["Temperature (K)" := [VInt 5778]]>
             (<["Luminosity(L/Lo)" := [VFloat 1]]>
             (<["Absolute magnitude(Mv)" := [VFloat (483 # 100)]]>
             (<["Spectral Class" := [VStr "G"]]> ∅))) |}.

(** A reader that parses every upload to the frame it is handed. *)
Definition parsed_as (df : DataFrame) : unit → string + DataFrame := λ _, inr df.

(** ** Definitions used to state the results *)

(** The frame the Classifier returns, given the entries of its rows. *)
Definition classified (df : DataFrame) (es : list (string * Z * string)) : DataFrame :=
  setitem (setitem (setitem df "Star type label" (item0 <$> es))
                   "Marker size" (item1 <$> es))
          "Color" (item2 <$> es).

(** What [create_luminosity_axis] asks of the twin axes, whatever its
    argument. *)
Definition luminosity_calls : list call :=
  [SetYscale Log;
   SetYlim (VFloat (1 # 1000000)) (VFloat 1000000);
   SetYticks ((λ k, Qpower 10 k) <$> seqZ (-6) 13);
   SetYticklabels
     ["$10^{-6}$"; "$10^{-5}$"; "$10^{-4}$"; "$10^{-3}$"; "$10^{-2}$"; "$10^{-1}$";
      "$10^{0}$"; "$10^{1}$"; "$10^{2}$"; "$10^{3}$"; "$10^{4}$"; "$10^{5}$"; "$10^{6}$"];
   YMinorLogLocator 10 [1; 2; 3; 4; 5; 6; 7; 8; 9];
   SetYlabel "Luminosity (L/Lo)" 12].

(** An entry of the fixed table. *)
Definition in_table (e : string * Z * string) : Prop := ∃ c, fixed_table c = Some e.

(** Distinct entries in order of first appearance. *)
Fixpoint dedup_from (seen es : list (string * Z * string)) : list (string * Z * string) :=
  match es with
  | [] => []
  | e :: es =>
      if decide (e ∈ seen) then dedup_from seen es
      else e :: dedup_from (e :: seen) es
  end.

(** The series drawn for the rows of entry [e]. *)
Definition scatter_of (labels temps mvs : Series) (e : string * Z * string) : call :=
  Scatter (rows_with (item0 e) labels temps) (rows_with (item0 e) labels mvs)
          (item2 e) (item1 e) (item0 e) (7 # 10) "black" (1 # 2).

(** The calls of a run of the Renderer that reaches the end, given its
    series and its four limits. *)
Definition primary_calls (series : list call) (temp_min temp_max mv_min mv_max : value)
    : list call :=
  series ++
  [SetXscale Log; InvertXaxis; InvertYaxis;
   SetXlabel "Temperature (K)" 12;
   SetYlabel "Absolute Magnitude (Mv)" 12;
   SetTitle "Hertzsprung-Russell Diagram" 14 30;
   Legend "Stellar Classification" (105 # 100, 1)%Q "upper left";
   Grid true "both" "--" (6 # 10)] ++
  [SetXlim temp_max temp_min; SetYlim mv_max mv_min] ++
  [SetXticks [40000; 30000; 20000; 10000; 7500; 6000; 5000; 3000]%Q;
   XMajorFormatterInt;
   XMinorLogLocator 10 [2; 3; 4; 5; 6; 7; 8; 9];
   TickParams "minor" 4].

Definition spectral_calls (temp_min temp_max : value) : list call :=
  [SetXscale Log;
   SetXlim temp_min temp_max;
   SetXticks [40000; 30000; 10000; 7500; 6000; 3700; 2000]%Q;
   SetXticklabels ["O"; "B"; "A"; "F"; "G"; "K"; "M"];
   SetXlabel "Spectral Class" 12;
   InvertXaxis].

Definition figure_of (series : list call) (temp_min temp_max mv_min mv_max : value) : Figure :=
  {| figsize := (14, 10);
     ax := primary_calls series temp_min temp_max mv_min mv_max;
     ax2 := spectral_calls temp_min temp_max;
     ax3 := luminosity_calls;
     tight_layout := [0; 0; 1; 96 # 100]%Q |}.

(** What a run adds to the session. *)
Definition emit (s : session) (out : list element) (st : list stage) : session :=
  {| page := page s ++ out; entered := entered s ++ st |}.

(** Two frames that differ at most in the cells of 'Luminosity(L/Lo)'. *)
Definition same_but_luminosity (df1 df2 : DataFrame) : Prop :=
  nrows df1 = nrows df2
  ∧ ∀ c, c ≠ "Luminosity(L/Lo)" → cols df1 !! c = cols df2 !! c.

(** ** Definitions used to state further results *)

(** A cell whose star-type code is in the table. *)
Definition table_cell (v : value) : Prop := ∃ c, has_code v c ∧ 0 ≤ c ≤ 5.

Definition is_text (v : value) : bool :=
  match v with VStr _ => true | _ => false end.

(** The column has a text cell. *)
Definition has_text (s : Series) : bool := existsb is_text s.

(** The cells that are not missing. *)
Definition numbers (s : Series) : Series := filter (λ v, is_nan v = false) s.

(** The number of points of a scatter series. *)
Definition points (c : call) : nat :=
  match c with
  | Scatter x _ _ _ _ _ _ _ => length x
  | _ => 0%nat
  end.

(** Two frames with the same cells in the columns [cs]. *)
Definition agree_on (cs : list string) (df1 df2 : DataFrame) : Prop :=
  ∀ c, c ∈ cs → cols df1 !! c = cols df2 !! c.

(** The columns the pipeline reads from an upload, and the ones the Renderer
    reads from a classified frame. *)
Definition input_columns : list string :=
  ["Star type"; "Temperature (K)"; "Absolute magnitude(Mv)"].
Definition plotted_columns : list string :=
  ["Star type label"; "Color"; "Marker size"; "Temperature (K)"; "Absolute magnitude(Mv)"].

(** A reader on which pandas raises. *)
Definition unreadable : unit → string + DataFrame := λ _, inl "No columns to parse from file".

(** [stars] with a missing temperature and a missing magnitude. *)
Definition stars_gaps : DataFrame :=
  frame 3 [VInt 5778; VNaN; VInt 9000]
          [VFloat 1; VFloat (1 # 2); VFloat 30]
          [VNaN; VFloat 10; VFloat 1]
          [VInt 3; VInt 0; VInt 3]
          [VStr "G"; VStr "M"; VStr "A"].

(** [stars] with a temperature that is not a number. *)
Definition stars_text : DataFrame :=
  frame 3 [VStr "5778K"; VStr "3000K"; VStr "9000K"]
          [VFloat 1; VFloat (1 # 2); VFloat 30]
          [VFloat (483 # 100); VFloat 10; VFloat 1]
          [VInt 3; VInt 0; VInt 3]
          [VStr "G"; VStr "M"; VStr "A"].

(** Rows, but no temperature at all. *)
Definition stars_blank : DataFrame :=
  frame 2 [VNaN; VNaN] [VFloat 1; VFloat 2] [VFloat 5; VFloat 6]
          [VInt 3; VInt 4] [VStr "G"; VStr "K"].

(** [stars] with float codes, one more column and a 'Color' column of its own. *)
Definition stars_extra : DataFrame :=
  {| nrows := 3;
     cols := <["Color" := [VStr "pink"; VStr "pink"; VStr "pink"]]>
             (<["Name" := [VStr "Sun"; VStr "Proxima"; VStr "Vega"]]>
             (cols stars)) |}.

(** ** Basic facts *)

Lemma bind_Ok {A B} (a : A) (k : A → result B) : (Ok a ≫= k) = k a.
Proof. reflexivity. Qed.

Lemma getitem_Some (df : DataFrame) (c : string) (s : Series) :
  cols df !! c = Some s → getitem df c = Ok s.
Proof. unfold getitem. by intros ->. Qed.

Lemma getitem_setitem_ne (df : DataFrame) (c c' : string) (s : Series) :
  c ≠ c' → getitem (setitem df c s) c' = getitem df c'.
Proof. intros Hne. unfold getitem, setitem; simpl. by rewrite lookup_insert_ne. Qed.

(** The dictionary of the source is the table of the specification. *)
Lemma star_type_map_table (c : Z) : star_type_map !! c = fixed_table c.
Proof.
  unfold star_type_map.
  repeat (rewrite lookup_insert; case_decide; [subst; reflexivity|]).
  rewrite lookup_empty.
  destruct c as [|p|p]; [lia| |reflexivity].
  destruct p as [[[]|[]|]|[[]|[]|]|]; first [reflexivity | lia].
Qed.

Lemma fixed_table_range (c : Z) : is_Some (fixed_table c) ↔ 0 ≤ c ≤ 5.
Proof.
  split.
  - intros [e He]. destruct c as [|p|p]; [lia| |discriminate].
    destruct p as [[[]|[]|]|[[]|[]|]|]; first [discriminate | lia].
  - intros Hc.
    assert (c = 0 ∨ c = 1 ∨ c = 2 ∨ c = 3 ∨ c = 4 ∨ c = 5) as Hcases by lia.
    destruct Hcases as [->|[->|[->|[->|[->| ->]]]]]; eexists; reflexivity.
Qed.

Lemma subscript_code (v : value) (c : Z) (e : string * Z * string) :
  has_code v c → fixed_table c = Some e → subscript v = Ok e.
Proof.
  unfold has_code, subscript. intros -> He. simpl.
  by rewrite star_type_map_table, He.
Qed.

Lemma subscript_no_code (v : value) (c : Z) :
  has_code v c → ¬ (0 ≤ c ≤ 5) → subscript v = Raise (KeyError v).
Proof.
  unfold has_code, subscript. intros -> Hc. simpl.
  rewrite star_type_map_table.
  destruct (fixed_table c) eqn:He; [|done].
  exfalso. apply Hc, fixed_table_range. eauto.
Qed.

Lemma series_map_subscript (f : string * Z * string → value)
    (st : Series) (es : list (string * Z * string)) :
  Forall2 (λ v e, subscript v = Ok e) st es →
  series_map (λ x, e ← subscript x; Ok (f e)) st = Ok (f <$> es).
Proof.
  induction 1 as [|v e st es Hv _ IH]; [done|].
  simpl. rewrite Hv, bind_Ok, bind_Ok, IH. done.
Qed.

(** Cells with codes in the table all find their entry. *)
Lemma entries_of_codes (st : Series) (codes : list Z) :
  Forall2 has_code st codes →
  Forall (λ c, 0 ≤ c ≤ 5) codes →
  ∃ es, Forall2 (λ v e, subscript v = Ok e) st es
        ∧ Forall2 (λ c e, fixed_table c = Some e) codes es.
Proof.
  induction 1 as [|v c st codes Hv _ IH]; intros Hc.
  - exists []. split; constructor.
  - apply Forall_cons in Hc as [Hc Hcs].
    destruct (IH Hcs) as (es & Hes & Htab).
    apply fixed_table_range in Hc as [e He].
    exists (e :: es). split; constructor; eauto using subscript_code.
Qed.

Lemma map_star_types_entries (df : DataFrame) (st : Series)
    (es : list (string * Z * string)) :
  cols df !! "Star type" = Some st →
  Forall2 (λ v e, subscript v = Ok e) st es →
  map_star_types df = Ok (classified df es).
Proof.
  intros Hst Hes. unfold map_star_types.
  rewrite (getitem_Some _ _ _ Hst), bind_Ok.
  rewrite (series_map_subscript _ _ _ Hes), bind_Ok.
  rewrite getitem_setitem_ne by done.
  rewrite (getitem_Some _ _ _ Hst), bind_Ok.
  rewrite (series_map_subscript _ _ _ Hes), bind_Ok.
  rewrite !getitem_setitem_ne by done.
  rewrite (getitem_Some _ _ _ Hst), bind_Ok.
  rewrite (series_map_subscript _ _ _ Hes), bind_Ok.
  reflexivity.
Qed.

Lemma classified_lookup (df : DataFrame) (es : list (string * Z * string)) (c : string) :
  cols (classified df es) !! c =
    if decide (c = "Color") then Some (item2 <$> es)
    else if decide (c = "Marker size") then Some (item1 <$> es)
    else if decide (c = "Star type label") then Some (item0 <$> es)
    else cols df !! c.
Proof.
  unfold classified, setitem; simpl.
  rewrite !lookup_insert.
  repeat case_decide; congruence.
Qed.

(** ** The Loader *)

Lemma missing_column_check (df : DataFrame) (col : string) :
  col ∈ required_columns →
  cols df !! col = None →
  forallb (has_column df) required_columns = false.
Proof.
  intros Hin Hnone.
  destruct (forallb (has_column df) required_columns) eqn:Hall; [|done].
  rewrite forallb_forall in Hall.
  apply list_elem_of_In, Hall in Hin.
  unfold has_column in Hin. apply bool_decide_eq_true_1 in Hin.
  rewrite Hnone in Hin. by destruct Hin.
Qed.

(** C1. When pandas parses the upload to a frame whose header lacks one of
    the five required columns, [load_data] puts the error message on the page
    and returns [None]; the main script then stops: it enters neither
    [map_star_types] nor [plot_hr_diagram] and shows no figure. *)
Theorem missing_column_no_figure (UploadedFile : Type)
    (read_csv : UploadedFile → string + DataFrame)
    (f : UploadedFile) (df : DataFrame) (col : string) (s : session) :
  read_csv f = inr df →
  col ∈ required_columns →
  cols df !! col = None →
  load_data UploadedFile read_csv f s =
    (Ok None,
     {| page := page s ++ [StError "Dataset is missing one or more required columns."];
        entered := entered s |})
  ∧ main UploadedFile read_csv (Some f) s =
    (Ok tt,
     {| page := page s ++ [StError "Dataset is missing one or more required columns."];
        entered := entered s ++ [LoadData] |}).
Proof.
  intros Hread Hin Hnone.
  pose proof (missing_column_check df col Hin Hnone) as Hcheck.
  assert (∀ s', load_data UploadedFile read_csv f s' =
    (Ok None,
     {| page := page s' ++ [StError "Dataset is missing one or more required columns."];
        entered := entered s' |})) as Hload.
  { intros s'. unfold load_data. rewrite Hread, Hcheck. reflexivity. }
  split; [apply Hload|].
  unfold main, app_bind. simpl. rewrite Hload. reflexivity.
Qed.

Lemma missing_column_no_figure_witness :
  main unit (parsed_as no_star_type) (Some tt) fresh =
    (Ok tt,
     {| page := [StError "Dataset is missing one or more required columns."];
        entered := [LoadData] |}).
Proof.
  refine (proj2 (missing_column_no_figure unit (parsed_as no_star_type) tt
                   no_star_type "Star type" fresh _ _ _)).
  - reflexivity.
  - unfold required_columns. set_solver.
  - vm_compute. reflexivity.
Defined.

(** ** The Classifier *)

(** C2. When every cell of 'Star type' carries a code in 0..5, the
    Classifier returns a frame with the same rows, the three derived columns
    have one cell per row, and row [i] holds the label, marker size and color
    that the fixed table gives for the code of row [i]. The other columns are
    kept as they were. *)
Theorem map_star_types_fixed_table (df : DataFrame) (st : Series) (codes : list Z) :
  wf_frame df →
  cols df !! "Star type" = Some st →
  Forall2 has_code st codes →
  Forall (λ c, 0 ≤ c ≤ 5) codes →
  ∃ df' labels sizes colors,
    map_star_types df = Ok df' ∧
    nrows df' = nrows df ∧
    cols df' !! "Star type label" = Some labels ∧
    cols df' !! "Marker size" = Some sizes ∧
    cols df' !! "Color" = Some colors ∧
    length labels = nrows df ∧ length sizes = nrows df ∧ length colors = nrows df ∧
    (∀ i c, codes !! i = Some c →
       ∃ l s k, fixed_table c = Some (l, s, k) ∧
         labels !! i = Some (VStr l) ∧ sizes !! i = Some (VInt s) ∧
         colors !! i = Some (VStr k)) ∧
    (∀ c, c ∉ ["Star type label"; "Marker size"; "Color"] → cols df' !! c = cols df !! c).
Proof.
  intros Hwf Hst Hcodes Hrange.
  destruct (entries_of_codes st codes Hcodes Hrange) as (es & Hes & Htab).
  pose proof (Hwf _ _ Hst) as Hlen; simpl in Hlen.
  assert (length es = nrows df) as Hles.
  { rewrite <- Hlen. symmetry. eapply Forall2_length, Hes. }
  exists (classified df es), (item0 <$> es), (item1 <$> es), (item2 <$> es).
  split; [by eapply map_star_types_entries|].
  split; [reflexivity|].
  rewrite !classified_lookup. simpl.
  do 3 (split; [reflexivity|]).
  rewrite !length_fmap.
  do 3 (split; [exact Hles|]).
  split.
  - intros i c Hi.
    destruct (Forall2_lookup_l _ _ _ _ _ Htab Hi) as (e & He & Hce).
    destruct e as [[l sz] k]. exists l, sz, k.
    rewrite !list_lookup_fmap, He. done.
  - intros c Hc. rewrite !lookup_insert.
    repeat case_decide; subst; first [done | exfalso; apply Hc; set_solver].
Qed.

Lemma map_star_types_fixed_table_witness :
  ∃ df' labels, map_star_types stars = Ok df'
    ∧ cols df' !! "Star type label" = Some labels
    ∧ length labels = 3%nat.
Proof.
  destruct (map_star_types_fixed_table stars [VInt 3; VInt 0; VInt 3] [3; 0; 3])
    as (df' & labels & sizes & colors & Hrun & _ & Hl & _ & _ & Hlen & _).
  - apply (bool_decide_unpack (wf_frame stars)). vm_compute. exact I.
  - vm_compute. reflexivity.
  - repeat constructor.
  - repeat constructor; lia.
  - exists df', labels. auto.
Defined.

(** ** The luminosity axis *)

Lemma create_luminosity_axis_calls (mv_range : number * number) :
  create_luminosity_axis mv_range = Ok luminosity_calls.
Proof. vm_compute. reflexivity. Qed.

Lemma plot_hr_diagram_ax3 (df : DataFrame) (fig : Figure) :
  plot_hr_diagram df = Ok fig → ax3 fig = luminosity_calls.
Proof.
  unfold plot_hr_diagram. intros H.
  repeat match type of H with
  | (create_luminosity_axis _ ≫= _) = Ok _ =>
      rewrite create_luminosity_axis_calls, bind_Ok in H
  | (?m ≫= _) = Ok _ => destruct m; [rewrite bind_Ok in H | discriminate H]
  end.
  injection H as <-. reflexivity.
Qed.

(** C7. For every magnitude range handed to it, the luminosity axis builder
    makes the same calls: a logarithmic vertical scale, limits 10^-6 and 10^6,
    a major tick at 10^k labelled "$10^{k}$" for every k from -6 to 6, and a
    base-10 minor locator with the multiples 1..9, so with each of 2..9. No
    dataset changes them: every figure the Renderer returns carries exactly
    these calls on its luminosity axis. *)
Theorem luminosity_axis_fixed (mv_range : number * number) :
  ∃ calls,
    create_luminosity_axis mv_range = Ok calls ∧
    yscale_of calls = Log ∧
    ylim_of calls = Some (VFloat (1 # 1000000), VFloat 1000000) ∧
    (1 # 1000000 == Qpower 10 (-6))%Q ∧ (1000000 == Qpower 10 6)%Q ∧
    length (yticks_of calls) = 13%nat ∧
    length (yticklabels_of calls) = 13%nat ∧
    (∀ k, -6 ≤ k ≤ 6 →
       yticks_of calls !! Z.to_nat (k + 6) = Some (Qpower 10 k) ∧
       yticklabels_of calls !! Z.to_nat (k + 6) = Some ("$10^{" +:+ pretty k +:+ "}$")) ∧
    yminor_of calls = Some (10%Q, [1; 2; 3; 4; 5; 6; 7; 8; 9]) ∧
    (∀ m, 2 ≤ m ≤ 9 → m ∈ [1; 2; 3; 4; 5; 6; 7; 8; 9]) ∧
    (∀ other, create_luminosity_axis other = Ok calls) ∧
    (∀ df fig, plot_hr_diagram df = Ok fig → ax3 fig = calls).
Proof.
  exists luminosity_calls.
  split; [apply create_luminosity_axis_calls|].
  do 2 (split; [reflexivity|]).
  do 2 (split; [reflexivity|]).
  do 2 (split; [reflexivity|]).
  split.
  - intros k Hk.
    assert (k = -6 ∨ k = -5 ∨ k = -4 ∨ k = -3 ∨ k = -2 ∨ k = -1 ∨ k = 0 ∨ k = 1
            ∨ k = 2 ∨ k = 3 ∨ k = 4 ∨ k = 5 ∨ k = 6) as Hcases by lia.
    repeat (destruct Hcases as [-> | Hcases]; [split; vm_compute; reflexivity|]).
    subst k. split; vm_compute; reflexivity.
  - split; [reflexivity|]. split; [|split].
    + intros m Hm. apply list_elem_of_In. simpl. lia.
    + intros other. apply create_luminosity_axis_calls.
    + apply plot_hr_diagram_ax3.
Qed.

(** ** The scatter loop *)

Lemma subscript_in_table (v : value) (e : string * Z * string) :
  subscript v = Ok e → in_table e.
Proof.
  unfold subscript. destruct (dict_key v) as [c|]; simpl; [|done].
  rewrite star_type_map_table. destruct (fixed_table c) eqn:He; [|done].
  intros [= <-]. by exists c.
Qed.

Lemma entries_in_table (st : Series) (es : list (string * Z * string)) :
  Forall2 (λ v e, subscript v = Ok e) st es → Forall in_table es.
Proof. induction 1; constructor; eauto using subscript_in_table. Qed.

Lemma in_table_cases (e : string * Z * string) :
  in_table e →
  e = ("Red Dwarf", 30, "red") ∨ e = ("Brown Dwarf", 20, "maroon")
  ∨ e = ("White Dwarf", 25, "green") ∨ e = ("Main Sequence", 50, "blue")
  ∨ e = ("Giant", 80, "orange") ∨ e = ("Supergiant", 100, "purple").
Proof.
  intros [c Hc].
  assert (0 ≤ c ≤ 5) as Hr by (apply fixed_table_range; eauto).
  assert (c = 0 ∨ c = 1 ∨ c = 2 ∨ c = 3 ∨ c = 4 ∨ c = 5) as Hcases by lia.
  destruct Hcases as [->|[->|[->|[->|[->| ->]]]]]; injection Hc as <-; tauto.
Qed.

(** In the table, the label alone and the color alone name the entry. *)
Lemma item0_inj (e1 e2 : string * Z * string) :
  in_table e1 → in_table e2 → item0 e1 = item0 e2 → e1 = e2.
Proof.
  intros H1 H2.
  apply in_table_cases in H1. apply in_table_cases in H2.
  destruct H1 as [->|[->|[->|[->|[->| ->]]]]];
    destruct H2 as [->|[->|[->|[->|[->| ->]]]]];
    first [reflexivity | discriminate].
Qed.

Lemma item2_inj (e1 e2 : string * Z * string) :
  in_table e1 → in_table e2 → item2 e1 = item2 e2 → e1 = e2.
Proof.
  intros H1 H2.
  apply in_table_cases in H1. apply in_table_cases in H2.
  destruct H1 as [->|[->|[->|[->|[->| ->]]]]];
    destruct H2 as [->|[->|[->|[->|[->| ->]]]]];
    first [reflexivity | discriminate].
Qed.

Lemma value_eqb_VStr (a b : string) : value_eqb (VStr a) (VStr b) = bool_decide (VStr a = VStr b).
Proof.
  simpl. apply bool_decide_ext. split; [by intros ->|by intros [= ->]].
Qed.

Lemma value_same_VStr (a b : string) : value_same (VStr a) (VStr b) = bool_decide (VStr a = VStr b).
Proof. unfold value_same. rewrite value_eqb_VStr. simpl. by rewrite orb_false_r. Qed.

Section Unique.

(** A text-valued field of the entries that names the entry. *)
Variable f : string * Z * string → value.
Hypothesis f_text : ∀ e, ∃ t, f e = VStr t.
Hypothesis f_inj : ∀ e1 e2, in_table e1 → in_table e2 → f e1 = f e2 → e1 = e2.

Lemma seen_field (e : string * Z * string) (seen : list (string * Z * string)) :
  in_table e → Forall in_table seen →
  existsb (value_same (f e)) (f <$> seen) = bool_decide (e ∈ seen).
Proof.
  intros He. induction 1 as [|x seen Hx _ IH]; [done|].
  rewrite fmap_cons. cbn [existsb]. rewrite IH.
  destruct (f_text e) as [t Ht], (f_text x) as [u Hu].
  rewrite Ht, Hu, value_same_VStr, <- Ht, <- Hu.
  destruct (decide (e = x)) as [->|Hne].
  - rewrite (bool_decide_eq_true_2 (f x = f x)) by done.
    rewrite (bool_decide_eq_true_2 (x ∈ x :: seen)) by left. done.
  - rewrite (bool_decide_eq_false_2 (f e = f x)) by (intros Heq; eauto).
    simpl. apply bool_decide_ext. set_solver.
Qed.

Lemma unique_from_field (seen es : list (string * Z * string)) :
  Forall in_table seen → Forall in_table es →
  unique_from (f <$> seen) (f <$> es) = f <$> dedup_from seen es.
Proof.
  intros Hseen Hes. revert seen Hseen.
  induction Hes as [|e es He _ IH]; intros seen Hseen; [done|].
  rewrite fmap_cons. cbn [unique_from dedup_from]. rewrite seen_field by done.
  destruct (decide (e ∈ seen)) as [Hin|Hnin].
  - rewrite bool_decide_eq_true_2 by done. by apply IH.
  - rewrite bool_decide_eq_false_2 by done.
    rewrite fmap_cons. f_equal. apply (IH (e :: seen)). by constructor.
Qed.

Lemma unique_field (es : list (string * Z * string)) :
  Forall in_table es → unique (f <$> es) = f <$> dedup_from [] es.
Proof. intros Hes. by apply (unique_from_field []). Qed.

End Unique.

Lemma dedup_from_spec (seen es : list (string * Z * string)) :
  NoDup (dedup_from seen es)
  ∧ ∀ e, e ∈ dedup_from seen es ↔ e ∈ es ∧ e ∉ seen.
Proof.
  revert seen. induction es as [|x es IH]; intros seen; simpl.
  - split; [constructor|set_solver].
  - destruct (decide (x ∈ seen)) as [Hin|Hnin].
    + destruct (IH seen) as [Hnd Hmem]. split; [done|].
      intros e. rewrite Hmem. set_solver.
    + destruct (IH (x :: seen)) as [Hnd Hmem]. split.
      * constructor; [|done]. rewrite Hmem. set_solver.
      * intros e. rewrite elem_of_cons, Hmem.
        destruct (decide (e = x)); set_solver.
Qed.

(** The boolean mask picks the rows with the label. *)
Lemma select_eq_mask (labels col : Series) (t : string) :
  Forall (λ l, ∃ u, l = VStr u) labels →
  select (eq_mask labels (VStr t)) col = rows_with (VStr t) labels col.
Proof.
  intros Hl. revert col.
  induction Hl as [|l labels [u ->] _ IH]; intros col; [done|].
  destruct col as [|x col]; [done|].
  unfold rows_with, eq_mask in *. cbn [map select zip zip_with].
  rewrite filter_cons. cbn [fst]. rewrite value_eqb_VStr.
  destruct (decide (VStr u = VStr t)) as [Heq|Hne].
  - rewrite bool_decide_eq_true_2 by done. rewrite fmap_cons. f_equal. apply IH.
  - rewrite bool_decide_eq_false_2 by done. apply IH.
Qed.

Lemma count_true_eq_mask (labels : Series) (t : string) :
  Forall (λ l, ∃ u, l = VStr u) labels →
  count_true (eq_mask labels (VStr t)) = length (filter (λ x, x = VStr t) labels).
Proof.
  unfold count_true, eq_mask.
  induction 1 as [|l labels [u ->] _ IH]; [done|].
  cbn [map]. rewrite !filter_cons, value_eqb_VStr.
  destruct (decide (VStr u = VStr t)) as [Heq|Hne].
  - rewrite bool_decide_eq_true_2 by done.
    rewrite decide_True by done. simpl. by rewrite IH.
  - rewrite bool_decide_eq_false_2 by done.
    rewrite decide_False by done. apply IH.
Qed.

Lemma length_rows_with (l : value) (labels col : Series) :
  length col = length labels →
  length (rows_with l labels col) = length (filter (λ x, x = l) labels).
Proof.
  unfold rows_with. rewrite length_fmap. revert col.
  induction labels as [|x labels IH]; intros [|y col] Hlen; try done.
  cbn [zip zip_with]. rewrite !filter_cons. cbn [fst].
  injection Hlen as Hlen.
  destruct (decide (x = l)); simpl; by rewrite IH.
Qed.

(** The rows of one entry all carry its fields. *)
Lemma rows_with_field (g : string * Z * string → value)
    (es : list (string * Z * string)) (e : string * Z * string) :
  Forall in_table es → in_table e →
  rows_with (item0 e) (item0 <$> es) (g <$> es) = g <$> filter (λ x, x = e) es.
Proof.
  intros Hes He. unfold rows_with.
  induction Hes as [|x es Hx _ IH]; [done|].
  rewrite !fmap_cons. cbn [zip zip_with]. rewrite !filter_cons. cbn [fst].
  destruct (decide (x = e)) as [->|Hne].
  - rewrite decide_True by done. rewrite !fmap_cons. cbn [snd]. f_equal. apply IH.
  - rewrite decide_False by (intros Heq; apply Hne; eauto using item0_inj).
    apply IH.
Qed.

Lemma head_filter_eq (es : list (string * Z * string)) (e : string * Z * string) :
  e ∈ es → head (filter (λ x, x = e) es) = Some e.
Proof.
  induction es as [|x es IH]; [by intros ?%elem_of_nil|].
  intros Hin. rewrite filter_cons.
  destruct (decide (x = e)) as [->|Hne]; [done|].
  apply IH. set_solver.
Qed.

Lemma item0_text (e : string * Z * string) : ∃ t, item0 e = VStr t.
Proof. by eexists. Qed.

Lemma item2_text (e : string * Z * string) : ∃ t, item2 e = VStr t.
Proof. by eexists. Qed.

Lemma labels_text (es : list (string * Z * string)) :
  Forall (λ l, ∃ u, l = VStr u) (item0 <$> es).
Proof. apply Forall_fmap, Forall_true. intros e. apply item0_text. Qed.

(** One turn of the loop on a classified frame. *)
Lemma scatter_group_classified (df : DataFrame) (temps mvs : Series)
    (es : list (string * Z * string)) (e : string * Z * string) :
  cols df !! "Temperature (K)" = Some temps →
  cols df !! "Absolute magnitude(Mv)" = Some mvs →
  Forall in_table es → e ∈ es →
  scatter_group (classified df es) (item0 e, item2 e) =
    Ok [scatter_of (item0 <$> es) temps mvs e].
Proof.
  intros Ht Hm Hes Hin.
  assert (in_table e) as He by (rewrite Forall_forall in Hes; auto).
  unfold scatter_group.
  rewrite (getitem_Some _ "Star type label" (item0 <$> es))
    by (by rewrite classified_lookup).
  rewrite bind_Ok.
  destruct (item0_text e) as [t Ht0].
  assert (empty (loc_mask (classified df es) (eq_mask (item0 <$> es) (item0 e))) = false)
    as ->.
  { unfold empty, loc_mask; cbn [nrows cols].
    apply orb_false_iff. split; apply bool_decide_eq_false_2.
    - rewrite Ht0, count_true_eq_mask by apply labels_text.
      rewrite <- Ht0. intros Hz. apply length_zero_iff_nil in Hz.
      assert (item0 e ∈ filter (λ x, x = item0 e) (item0 <$> es)) as Hmem.
      { apply list_elem_of_filter. split; [done|]. by apply list_elem_of_fmap_2. }
      rewrite Hz in Hmem. by apply elem_of_nil in Hmem.
    - intros Hempty.
      assert ((select (eq_mask (item0 <$> es) (item0 e)) <$> cols (classified df es))
                !! "Color" = None) as Hnone by (by rewrite Hempty).
      rewrite lookup_fmap, classified_lookup in Hnone. done. }
  unfold getitem, loc_mask; cbn [cols].
  rewrite !lookup_fmap, !classified_lookup. simpl.
  rewrite Ht, Hm. simpl.
  rewrite Ht0, !select_eq_mask by apply labels_text. rewrite <- Ht0.
  rewrite (rows_with_field item1) by done.
  unfold iloc0.
  pose proof (head_filter_eq es e Hin) as Hhead.
  destruct (filter (λ x, x = e) es) as [|y ys]; [done|].
  injection Hhead as ->. reflexivity.
Qed.

Lemma zip_fields {A B C} (f : A → B) (g : A → C) (l : list A) :
  zip (f <$> l) (g <$> l) = (λ a, (f a, g a)) <$> l.
Proof. induction l as [|a l IH]; [done|]. rewrite !fmap_cons. simpl. by rewrite IH. Qed.

Lemma for_each_fmap_singletons {A B} (body : B → result (list call)) (h : A → B)
    (g : A → call) (l : list A) :
  Forall (λ a, body (h a) = Ok [g a]) l → for_each body (h <$> l) = Ok (g <$> l).
Proof.
  induction 1 as [|a l Ha _ IH]; [done|].
  rewrite !fmap_cons. simpl. rewrite Ha, bind_Ok, IH, bind_Ok. done.
Qed.

(** The loop on a classified frame: one series per distinct entry, in order
    of first appearance. *)
Lemma scatter_loop_classified (df : DataFrame) (temps mvs : Series)
    (es : list (string * Z * string)) :
  cols df !! "Temperature (K)" = Some temps →
  cols df !! "Absolute magnitude(Mv)" = Some mvs →
  Forall in_table es →
  scatter_loop (classified df es) =
    Ok (scatter_of (item0 <$> es) temps mvs <$> dedup_from [] es).
Proof.
  intros Ht Hm Hes. unfold scatter_loop.
  rewrite (getitem_Some _ "Star type label" (item0 <$> es))
    by (by rewrite classified_lookup).
  rewrite (getitem_Some _ "Color" (item2 <$> es)) by (by rewrite classified_lookup).
  rewrite !bind_Ok.
  rewrite (unique_field item0 item0_text item0_inj) by done.
  rewrite (unique_field item2 item2_text item2_inj) by done.
  rewrite zip_fields.
  apply for_each_fmap_singletons.
  apply Forall_forall. intros e He.
  apply scatter_group_classified; try done.
  apply (dedup_from_spec [] es) in He. tauto.
Qed.

(** *** What the loop can put on the axes *)

Lemma scatter_group_scatter (df : DataFrame) (sc : value * value) (cs : list call) :
  scatter_group df sc = Ok cs → Forall (λ c, is_scatter c = true) cs.
Proof.
  unfold scatter_group. destruct sc as [s_type color]. intros H.
  destruct (getitem df "Star type label"); [rewrite bind_Ok in H|discriminate H].
  destruct (empty _); [injection H as <-; constructor|].
  repeat match type of H with
  | (?m ≫= _) = Ok _ => destruct m; [rewrite bind_Ok in H | discriminate H]
  end.
  injection H as <-. by repeat constructor.
Qed.

Lemma for_each_scatter {A} (body : A → result (list call)) (l : list A) (cs : list call) :
  (∀ a cs, body a = Ok cs → Forall (λ c, is_scatter c = true) cs) →
  for_each body l = Ok cs → Forall (λ c, is_scatter c = true) cs.
Proof.
  intros Hbody. revert cs.
  induction l as [|a l IH]; intros cs H; simpl in H.
  - injection H as <-. constructor.
  - destruct (body a) as [ca|] eqn:Ha; [rewrite bind_Ok in H|discriminate H].
    destruct (for_each body l) as [cl|]; [rewrite bind_Ok in H|discriminate H].
    injection H as <-. apply Forall_app. eauto.
Qed.

Lemma scatter_loop_scatter (df : DataFrame) (series : list call) :
  scatter_loop df = Ok series → Forall (λ c, is_scatter c = true) series.
Proof.
  unfold scatter_loop. intros H.
  destruct (getitem df "Star type label"); [rewrite bind_Ok in H|discriminate H].
  destruct (getitem df "Color"); [rewrite bind_Ok in H|discriminate H].
  eapply for_each_scatter, H. apply scatter_group_scatter.
Qed.

Lemma series_of_scatters (series rest : list call) :
  Forall (λ c, is_scatter c = true) series →
  series_of (series ++ rest) = series ++ series_of rest.
Proof.
  intros Hs. unfold series_of. rewrite filter_app. f_equal.
  induction Hs as [|c series Hc _ IH]; [done|].
  rewrite filter_cons, decide_True by done. by rewrite IH.
Qed.

Lemma fold_scatters {S} (step : S → call → S) (series : list call) (s : S) :
  (∀ s c, is_scatter c = true → step s c = s) →
  Forall (λ c, is_scatter c = true) series →
  fold_left step series s = s.
Proof.
  intros Hstep. induction 1 as [|c series Hc _ IH]; [done|].
  simpl. by rewrite Hstep.
Qed.

Ltac skip_scatters Hs :=
  rewrite fold_left_app;
  match type of Hs with
  | Forall _ ?l => erewrite (fold_scatters _ l); [|by intros ? [] ?|exact Hs]
  end.

(** *** The figure of a run that reaches the end *)

Lemma set_xlim_Fin (l r : value) :
  set_xlim (Fin l) (Fin r)
  = if finite l && finite r then Ok (SetXlim l r) else Raise ValueError.
Proof. reflexivity. Qed.

Lemma set_ylim_Fin (b t : value) :
  set_ylim (Fin b) (Fin t)
  = if finite b && finite t then Ok (SetYlim b t) else Raise ValueError.
Proof. reflexivity. Qed.

(** Every figure the Renderer returns has this shape. *)
Lemma plot_hr_diagram_shape (df : DataFrame) (fig : Figure) :
  plot_hr_diagram df = Ok fig →
  ∃ series temp_min temp_max mv_min mv_max,
    scatter_loop df = Ok series ∧
    fig = figure_of series temp_min temp_max mv_min mv_max.
Proof.
  unfold plot_hr_diagram, create_spectral_class_axis. intros H.
  destruct (scatter_loop df) as [series|]; [rewrite bind_Ok in H|discriminate H].
  repeat match type of H with
  | context [create_luminosity_axis _] => rewrite create_luminosity_axis_calls in H
  | context [if ?b then _ else _] => destruct b; [|discriminate H]
  | context [Ok _ ≫= _] => rewrite bind_Ok in H
  | context [(?a, ?b).1] => change ((a, b).1) with a in H
  | context [(?a, ?b).2] => change ((a, b).2) with b in H
  | context [set_xlim (Fin _) (Fin _)] => rewrite set_xlim_Fin in H
  | context [set_ylim (Fin _) (Fin _)] => rewrite set_ylim_Fin in H
  | (set_xlim ?a ?b ≫= _) = Ok _ => destruct a, b; try discriminate H
  | (set_ylim ?a ?b ≫= _) = Ok _ => destruct a, b; try discriminate H
  | (?m ≫= _) = Ok _ => destruct m; [|discriminate H]
  end.
  injection H as <-. eexists _, _, _, _, _. split; reflexivity.
Qed.

Lemma plot_hr_diagram_series (df : DataFrame) (fig : Figure) (series : list call) :
  scatter_loop df = Ok series →
  plot_hr_diagram df = Ok fig →
  series_of (ax fig) = series.
Proof.
  intros Hloop Hplot.
  destruct (plot_hr_diagram_shape df fig Hplot) as (s' & ? & ? & ? & ? & Hs' & ->).
  rewrite Hloop in Hs'. injection Hs' as <-.
  simpl. unfold primary_calls.
  rewrite series_of_scatters by eauto using scatter_loop_scatter.
  simpl. apply app_nil_r.
Qed.

(** ** Column minimum and maximum *)

Lemma numeric_finite (s : Series) :
  Forall (λ v, finite v) s → numeric s = Ok s.
Proof.
  intros Hs. unfold numeric.
  assert (existsb (λ v, match v with VStr _ => true | _ => false end) s = false) as ->.
  { induction Hs as [|v s Hv _ IH]; [done|]. simpl. rewrite IH. by destruct v. }
  f_equal. induction Hs as [|v s Hv _ IH]; [done|].
  rewrite filter_cons, IH. by destruct v.
Qed.

Lemma fold_min_spec (l : list value) (x : value) :
  is_min (fold_left value_min l x) (x :: l).
Proof.
  revert x. induction l as [|y l IH]; intros x; simpl.
  - split; [left|]. intros v ->%list_elem_of_singleton. apply Qle_refl.
  - destruct (IH (value_min x y)) as [Hin Hle]. split.
    + apply elem_of_cons in Hin as [->|Hin]; [|set_solver].
      unfold value_min. destruct (Qle_bool _ _); set_solver.
    + assert (num (value_min x y) <= num x ∧ num (value_min x y) <= num y)%Q as [Hx Hy].
      { unfold value_min. destruct (Qle_bool (num x) (num y)) eqn:Hb.
        - apply Qle_bool_iff in Hb. split; [apply Qle_refl|done].
        - split; [|apply Qle_refl].
          destruct (Qlt_le_dec (num y) (num x)) as [Hlt|Hle'].
          + by apply Qlt_le_weak.
          + apply Qle_bool_iff in Hle'. congruence. }
      intros v Hv.
      apply elem_of_cons in Hv as [->|Hv];
        [|apply elem_of_cons in Hv as [->|Hv]].
      * eapply Qle_trans; [|exact Hx]. apply Hle. left.
      * eapply Qle_trans; [|exact Hy]. apply Hle. left.
      * apply Hle. by right.
Qed.

Lemma fold_max_spec (l : list value) (x : value) :
  is_max (fold_left value_max l x) (x :: l).
Proof.
  revert x. induction l as [|y l IH]; intros x; simpl.
  - split; [left|]. intros v ->%list_elem_of_singleton. apply Qle_refl.
  - destruct (IH (value_max x y)) as [Hin Hle]. split.
    + apply elem_of_cons in Hin as [->|Hin]; [|set_solver].
      unfold value_max. destruct (Qle_bool _ _); set_solver.
    + assert (num x <= num (value_max x y) ∧ num y <= num (value_max x y))%Q as [Hx Hy].
      { unfold value_max. destruct (Qle_bool (num x) (num y)) eqn:Hb.
        - apply Qle_bool_iff in Hb. split; [done|apply Qle_refl].
        - split; [apply Qle_refl|].
          destruct (Qlt_le_dec (num y) (num x)) as [Hlt|Hle'].
          + by apply Qlt_le_weak.
          + apply Qle_bool_iff in Hle'. congruence. }
      intros v Hv.
      apply elem_of_cons in Hv as [->|Hv];
        [|apply elem_of_cons in Hv as [->|Hv]].
      * eapply Qle_trans; [exact Hx|]. apply Hle. left.
      * eapply Qle_trans; [exact Hy|]. apply Hle. left.
      * apply Hle. by right.
Qed.

Lemma reduce_min_spec (s : Series) : s ≠ [] → is_min (reduce value_min s) s.
Proof. destruct s as [|x l]; [done|]. intros _. apply fold_min_spec. Qed.

Lemma reduce_max_spec (s : Series) : s ≠ [] → is_max (reduce value_max s) s.
Proof. destruct s as [|x l]; [done|]. intros _. apply fold_max_spec. Qed.

Lemma numeric_text (s : Series) : has_text s = true → numeric s = Raise TypeError.
Proof. intros H. unfold numeric. change (existsb _ s) with (has_text s). by rewrite H. Qed.

Lemma numeric_no_text (s : Series) : has_text s = false → numeric s = Ok (numbers s).
Proof. intros H. unfold numeric. change (existsb _ s) with (has_text s). by rewrite H. Qed.

Lemma numbers_finite (s : Series) :
  has_text s = false → Forall (λ v, finite v) (numbers s).
Proof.
  intros H. apply Forall_forall. intros v [Hnan Hin]%list_elem_of_filter.
  unfold has_text in H.
  destruct v as [z|q| |t]; try done.
  assert (existsb is_text s = true) as Hex; [|congruence].
  apply existsb_exists. exists (VStr t). split; [by apply list_elem_of_In|done].
Qed.

(** The two ends of a column without text: both nan when no cell is left,
    both numbers otherwise. *)
Lemma reduce_cases (s : Series) :
  has_text s = false →
  (numbers s = [] ∧ reduce value_min (numbers s) = VNaN
   ∧ reduce value_max (numbers s) = VNaN)
  ∨ (numbers s ≠ [] ∧ finite (reduce value_min (numbers s))
     ∧ finite (reduce value_max (numbers s))).
Proof.
  intros H. pose proof (numbers_finite s H) as Hfin.
  destruct (numbers s) as [|x l] eqn:Hl; [by left|right].
  split; [done|]. rewrite Forall_forall in Hfin.
  split; apply Hfin; [by apply reduce_min_spec|by apply reduce_max_spec].
Qed.

(** ** Binary64 rounding *)

(** Rounding to the nearest integer is off by at most a half. *)
Lemma rne_error (a b : Z) : 0 < b → 2 * Z.abs (rne a b * b - a) ≤ b.
Proof.
  intros Hb. unfold rne.
  pose proof (Z.div_mod a b ltac:(lia)) as Hdm.
  pose proof (Z.mod_pos_bound a b Hb) as Hr.
  set (q := a / b) in *. set (r := a mod b) in *.
  clearbody q r.
  assert (q * b - a = - r) as Hf by (rewrite Hdm; ring).
  assert ((q + 1) * b - a = b - r) as Hc1 by (rewrite Hdm; ring).
  destruct (Z.compare_spec (2 * r) b) as [Hc|Hc|Hc].
  - destruct (Z.even q); rewrite ?Hf, ?Hc1; lia.
  - rewrite Hf. lia.
  - rewrite Hc1. lia.
Qed.

Lemma grid_pos (a b : Z) : 0 < grid a b.
Proof. unfold grid. apply Z.pow_pos_nonneg; lia. Qed.

Lemma grid_cases (a b : Z) :
  0 ≤ a → 0 < b → grid a b = 1 ∨ grid a b * 2 ^ 52 * b ≤ a.
Proof.
  intros Ha Hb. unfold grid.
  destruct (Z.max_spec 0 (Z.log2 (a / b) - 52)) as [[Hlt ->]|[Hge ->]].
  - right. rewrite <- Z.pow_add_r by lia.
    replace (Z.log2 (a / b) - 52 + 52) with (Z.log2 (a / b)) by lia.
    assert (0 < a / b) as Hq.
    { destruct (Z.le_gt_cases (a / b) 0) as [Hle|]; [|done].
      rewrite (Z.log2_nonpos _ Hle) in Hlt. lia. }
    pose proof (Z.log2_spec (a / b) Hq) as [Hlo _].
    pose proof (Z.mul_div_le a b Hb). nia.
  - by left.
Qed.

Lemma round_units_error (a b : Z) :
  0 ≤ a → 0 < b →
  2 * Z.abs (round_units a b * b - a) ≤ b * grid a b.
Proof.
  intros Ha Hb. unfold round_units.
  pose proof (grid_pos a b) as Hg.
  pose proof (rne_error a (b * grid a b) ltac:(nia)) as He.
  replace (rne a (b * grid a b) * grid a b * b - a)
    with (rne a (b * grid a b) * (b * grid a b) - a) by ring.
  done.
Qed.

Lemma round_units_nonneg (a b : Z) : 0 ≤ a → 0 < b → 0 ≤ round_units a b.
Proof.
  intros Ha Hb. unfold round_units, rne.
  pose proof (grid_pos a b) as Hg.
  assert (0 ≤ a / (b * grid a b)) by (apply Z.div_pos; nia).
  destruct (_ ?= _); [destruct (Z.even _)|..]; nia.
Qed.

Lemma huge_fits : (2 ^ 53 + 1) * huge < 2 ^ 53 * 2 ^ 1024.
Proof. vm_compute. reflexivity. Qed.

Lemma round_units_zero (b : Z) : 0 < b → round_units 0 b = 0.
Proof.
  intros Hb. pose proof (round_units_error 0 b ltac:(lia) Hb) as He.
  pose proof (grid_cases 0 b ltac:(lia) Hb) as [Hg|Hg].
  - rewrite Hg in He. nia.
  - pose proof (grid_pos 0 b). nia.
Qed.

(** A rounding is off by at most half a unit, or by at most 2^-53 of what
    is rounded. *)
Lemma round_units_spec (a b : Z) :
  0 ≤ a → 0 < b →
  0 ≤ round_units a b
  ∧ (2 * Z.abs (round_units a b * b - a) ≤ b
     ∨ 2 ^ 53 * Z.abs (round_units a b * b - a) ≤ a).
Proof.
  intros Ha Hb. split; [by apply round_units_nonneg|].
  pose proof (round_units_error a b Ha Hb) as He.
  destruct (grid_cases a b Ha Hb) as [Hg|Hg].
  - left. rewrite Hg in He. lia.
  - right. replace (2 ^ 53) with (2 * 2 ^ 52) by reflexivity.
    set (E := Z.abs _) in *. set (g := grid a b) in *. clearbody E g.
    assert (0 < 2 ^ 52) by (vm_compute; reflexivity). nia.
Qed.

Lemma round_units_below (a b B : Z) :
  0 ≤ a → 0 < b → 0 < B → a ≤ B * b →
  2 ^ 53 * round_units a b ≤ (2 ^ 53 + 1) * B.
Proof.
  intros Ha Hb HB Hab.
  destruct (round_units_spec a b Ha Hb) as [Hn [He|He]].
  - set (N := round_units a b) in *. clearbody N.
    assert (N * b ≤ B * b + b) as H1 by lia.
    assert (N ≤ B + 1) as H2 by nia.
    assert (2 * N * b ≤ 2 * B * b + b) as H3 by lia.
    assert (N ≤ B) by nia. 
    assert (0 < 2 ^ 53) by (vm_compute; reflexivity). nia.
  - set (N := round_units a b) in *. clearbody N.
    set (c := 2 ^ 53) in *. assert (0 < c) by (vm_compute; reflexivity). clearbody c.
    assert (c * (N * b - a) ≤ a) as H1 by lia.
    assert (c * N * b ≤ (c + 1) * B * b) as H2 by nia.
    nia.
Qed.

Lemma units_pos : Z.pos units = 2 ^ 1074.
Proof. vm_compute. reflexivity. Qed.

Lemma units_split : Z.pos units = 2 ^ 52 * Z.pos (2 ^ 1022).
Proof. vm_compute. reflexivity. Qed.

(** Up to 1.7e308 a number rounds to a binary64 of its sign, within a
    relative 2^-53 when it is at least 2^-1022, within 2^-1075 more
    otherwise. *)
Lemma round64_near (q : Q) :
  (Qabs q <= inject_Z huge)%Q →
  ∃ x, round64 q = Fin (VFloat x)
    ∧ (Qabs (x - q) <= Qabs q * eps + half_unit)%Q
    ∧ ((tiny <= q)%Q → (Qabs (x - q) <= q * eps)%Q)
    ∧ ((0 <= q)%Q → (0 <= x)%Q)
    ∧ ((q <= 0)%Q → (x <= 0)%Q).
Proof.
  destruct q as [n d]. unfold Qle at 1. cbn [Qabs Qnum Qden inject_Z].
  intros Hbound. rewrite Z.mul_1_r in Hbound.
  unfold round64. cbn [Qnum Qden].
  set (U := Z.pos units) in *.
  set (a := Z.abs n * U) in *.
  set (N := round_units a (Z.pos d)).
  assert (0 < U) as HU by done.
  assert (0 ≤ a) as Ha by (unfold a; lia).
  pose proof (round_units_spec a (Z.pos d) Ha ltac:(done)) as [HN Herr].
  fold N in HN, Herr.
  assert (N < U * 2 ^ 1024) as Hfin.
  { pose proof (round_units_below a (Z.pos d) (huge * U) Ha ltac:(done)
                 ltac:(unfold huge; lia) ltac:(unfold a; nia)) as Hb.
    fold N in Hb. pose proof huge_fits as Hh.
    set (c := 2 ^ 53) in *. assert (0 < c) by (vm_compute; reflexivity).
    set (K := 2 ^ 1024) in *. clearbody c K N a. nia. }
  apply Z.leb_gt in Hfin. rewrite Hfin.
  eexists. split; [reflexivity|].
  assert (Z.abs (Z.sgn n * N * Z.pos d - n * U) = Z.abs (N * Z.pos d - a)) as Habs.
  { destruct (Z.lt_trichotomy n 0) as [Hn|[Hn|Hn]].
    - unfold a. rewrite (Z.sgn_neg n), (Z.abs_neq n) by lia.
      rewrite <- Z.abs_opp. f_equal. ring.
    - unfold N, a. subst n. change (Z.abs 0) with 0.
      rewrite Z.mul_0_l, round_units_zero by done. done.
    - unfold a. rewrite (Z.sgn_pos n), (Z.abs_eq n) by lia. f_equal. ring. }
  assert (0 < 2 ^ 52) as H52 by (vm_compute; reflexivity).
  split; [|split; [|split]].
  - unfold Qle, Qminus, Qplus, Qopp, Qmult, Qabs, eps, half_unit.
    cbn [Qnum Qden inject_Z].
    rewrite !Pos2Z.inj_mul, !Z.mul_1_r, !Z.mul_1_l. fold U.
    replace (Z.sgn n * N * Z.pos d + - n * U) with (Z.sgn n * N * Z.pos d - n * U) by ring.
    rewrite Habs. set (E := Z.abs (N * Z.pos d - a)) in *.
    replace (Z.pos 9007199254740992) with (2 * 2 ^ 52) by reflexivity.
    replace (2 ^ 53) with (2 * 2 ^ 52) in Herr by reflexivity.
    set (c := 2 ^ 52) in *. unfold a in Herr.
    set (D := Z.pos d) in *. assert (0 < D) by done.
    clearbody E c D U. destruct Herr as [He|He]; nia.
  - unfold Qle at 1. unfold tiny. cbn [Qnum Qden]. rewrite Z.mul_1_l.
    intros Hnormal.
    unfold Qle, Qminus, Qplus, Qopp, Qmult, Qabs, eps.
    cbn [Qnum Qden inject_Z].
    rewrite !Pos2Z.inj_mul, !Z.mul_1_r. fold U.
    replace (Z.sgn n * N * Z.pos d + - n * U) with (Z.sgn n * N * Z.pos d - n * U) by ring.
    rewrite Habs. set (E := Z.abs (N * Z.pos d - a)) in *.
    assert (0 < n) as Hn by lia.
    unfold a in Herr. rewrite (Z.abs_eq n) in Herr by lia.
    replace (Z.pos 9007199254740992) with (2 * 2 ^ 52) by reflexivity.
    replace (2 ^ 53) with (2 * 2 ^ 52) in Herr by reflexivity.
    pose proof units_split as Hsplit. fold U in Hsplit.
    set (c := 2 ^ 52) in *. set (T := Z.pos (2 ^ 1022)) in *.
    set (D := Z.pos d) in *. assert (0 < D) by done.
    clearbody E c D U T. subst U. destruct Herr as [He|He]; nia.
  - unfold Qle. cbn [Qnum Qden]. rewrite !Z.mul_1_r. intros Hn. simpl. nia.
  - unfold Qle. cbn [Qnum Qden]. rewrite !Z.mul_1_r. simpl. intros Hn. nia.
Qed.

Ltac qconst := unfold Qle, Qlt; vm_compute; first [discriminate | reflexivity].

Lemma tiny_pos : (0 < tiny)%Q. Proof. qconst. Qed.
Lemma half_unit_pos : (0 < half_unit)%Q. Proof. qconst. Qed.
Lemma half_unit_tiny : (half_unit <= tiny)%Q. Proof. qconst. Qed.
Lemma tiny_small : (tiny <= 1 # 1000)%Q. Proof. qconst. Qed.
Lemma big_large : (1000 <= big)%Q. Proof. qconst. Qed.
Lemma big_huge : (big * (3 # 2) <= hugeQ)%Q. Proof. qconst. Qed.

Lemma Qabs_bound (x y : Q) : (Qabs x <= y)%Q ↔ (- y <= x ∧ x <= y)%Q.
Proof. apply Qabs_Qle_condition. Qed.

(** A rounding within the range, in linear form. *)
Lemma round64_in_range (q : Q) (A : Q) :
  (- A <= q)%Q → (q <= A)%Q → (A <= hugeQ)%Q →
  ∃ x, round64 q = Fin (VFloat x)
    ∧ (x - q <= A * eps + half_unit)%Q
    ∧ (q - x <= A * eps + half_unit)%Q.
Proof.
  intros Hlo Hhi HA.
  assert (Qabs q <= A)%Q as Hq by (apply Qabs_bound; split; lra).
  destruct (round64_near q) as (x & Hx & Herr & _).
  { unfold hugeQ in HA. lra. }
  exists x. split; [done|].
  apply Qabs_bound in Herr.
  assert (Qabs q * eps <= A * eps)%Q.
  { apply Qmult_le_compat_r; [done|]. unfold eps. qconst. }
  lra.
Qed.

Lemma round64_normal (q : Q) :
  (tiny <= q)%Q → (q <= hugeQ)%Q →
  ∃ x, round64 q = Fin (VFloat x)
    ∧ (q * (1 - eps) <= x)%Q ∧ (x <= q * (1 + eps))%Q.
Proof.
  intros Hlo Hhi. pose proof tiny_pos.
  destruct (round64_near q) as (x & Hx & _ & Herr & _).
  { apply Qabs_bound. unfold hugeQ in *. split; lra. }
  exists x. split; [done|].
  apply Herr in Hlo. apply Qabs_bound in Hlo. lra.
Qed.


Lemma literal_bounds (f : Q) :
  (tiny <= f)%Q → (f <= hugeQ)%Q →
  (f * (1 - eps) <= literal f)%Q ∧ (literal f <= f * (1 + eps))%Q.
Proof.
  intros Hlo Hhi. unfold literal.
  destruct (round64_normal f Hlo Hhi) as (x & -> & H1 & H2). done.
Qed.

Lemma mul_float_cell (v : value) (f : Q) :
  finite v → mul_float v f = Ok (fmul (cell v) (literal f)).
Proof. by destruct v. Qed.

Lemma cell_num (v : value) : finite v → cell v = round64 (num v).
Proof. by destruct v. Qed.


(** Within ±10^308 the product with 0.9 or 1.1 does not overflow. *)
Lemma mul_float_in_range (v : value) (f : Q) :
  finite v →
  (- big <= num v)%Q → (num v <= big)%Q →
  (9 # 10 <= f)%Q → (f <= 11 # 10)%Q →
  ∃ x, mul_float v f = Ok (Fin (VFloat x)).
Proof.
  intros Hv Hlo Hhi Hf1 Hf2.
  pose proof tiny_pos. pose proof tiny_small. pose proof big_huge. pose proof big_large.
  pose proof half_unit_pos. pose proof half_unit_tiny.
  rewrite (mul_float_cell v f Hv), (cell_num v Hv).
  destruct (round64_in_range (num v) big) as (x1 & -> & Hx1 & Hx1'); [lra|lra|lra|].
  destruct (literal_bounds f) as [Ha Ha']; [lra|unfold hugeQ in *; lra|].
  cbn [fmul].
  set (a := literal f) in *. set (q := num v) in *.
  assert (0 < eps ∧ eps <= 1 # 1000000)%Q as [He He'] by (unfold eps; split; qconst).
  destruct (round64_in_range (x1 * a) (big * (3 # 2))) as (x & -> & _); [| |lra|by eexists].
  - assert (- (big * (11 # 10)) <= x1)%Q by nra.
    assert (0 <= a ∧ a <= 12 # 10)%Q as [? ?] by (split; nra).
    nra.
  - assert (x1 <= big * (11 # 10))%Q by nra.
    assert (0 <= a ∧ a <= 12 # 10)%Q as [? ?] by (split; nra).
    nra.
Qed.

Lemma wrap64_id (z : Z) : - 2 ^ 63 ≤ z < 2 ^ 63 → wrap64 z = z.
Proof.
  intros Hz. unfold wrap64.
  rewrite Z.mod_small; [lia|]. 
  change (2 ^ 64) with (2 ^ 63 + 2 ^ 63). lia.
Qed.

(** Adding or subtracting 1 to a cell of magnitude at most 10^15. *)
Lemma add_int_small (v : value) (k : Z) :
  finite v →
  (- small <= num v)%Q → (num v <= small)%Q →
  k = 1 ∨ k = -1 →
  ∃ w, add_int v k = Ok (Fin w) ∧ finite w
    ∧ (num w - (num v + inject_Z k) <= 1 # 4)%Q
    ∧ (num v + inject_Z k - num w <= 1 # 4)%Q
    ∧ (∀ z, v = VInt z → w = VInt (z + k)).
Proof.
  intros Hv Hlo Hhi Hk.
  assert (small == 1000000000000000)%Q as Hsmall by (unfold small; qconst || reflexivity).
  destruct v as [z|q| |]; try done; cbn [add_int] in *;
    [change (num (VInt z)) with (inject_Z z) in *
    |change (num (VFloat q)) with q in *].
  - exists (VInt (z + k)).
    assert (- 10 ^ 15 ≤ z ≤ 10 ^ 15) as Hz.
    { unfold small in *. rewrite <- Zle_Qle in Hhi.
      change (- inject_Z (10 ^ 15))%Q with (inject_Z (- 10 ^ 15)) in Hlo.
      rewrite <- Zle_Qle in Hlo. lia. }
    rewrite wrap64_id by (change (10 ^ 15) with 1000000000000000 in Hz;
                          change (2 ^ 63) with 9223372036854775808; lia).
    split; [done|]. split; [done|].
    change (num (VInt (z + k))) with (inject_Z (z + k)). rewrite inject_Z_plus.
    split; [lra|]. split; [lra|]. by intros ? [= ->].
  - pose proof half_unit_pos. pose proof half_unit_tiny. pose proof tiny_small.
    pose proof big_huge. pose proof big_large.
    assert (small * eps <= 1 # 9 ∧ (small + 2) * eps <= 1 # 9)%Q as [He He']
      by (unfold small, eps; split; qconst).
    assert (small <= big)%Q as Hsb by (unfold small, big; qconst).
    destruct (round64_in_range q small) as (x1 & -> & Hx1 & Hx1'); [lra|lra|lra|].
    cbn [fadd].
    assert (inject_Z k == 1 ∨ inject_Z k == -1)%Q as Hk'.
    { destruct Hk as [-> | ->]; [left|right]; reflexivity. }
    destruct (round64_in_range (x1 + inject_Z k) (small + 2)) as (x & -> & Hx & Hx');
      [destruct Hk'; lra|destruct Hk'; lra|lra|].
    exists (VFloat x). split; [done|]. split; [done|]. change (num (VFloat x)) with x.
    split; [|split; [|done]]; destruct Hk'; lra.
Qed.

Lemma add_int_in_range (v : value) (k : Z) :
  finite v →
  (- big <= num v)%Q → (num v <= big)%Q →
  k = 1 ∨ k = -1 →
  ∃ w, add_int v k = Ok (Fin w) ∧ finite w.
Proof.
  intros Hv Hlo Hhi Hk.
  destruct v as [z|q| |]; try done; cbn [add_int] in *;
    [change (num (VInt z)) with (inject_Z z) in *
    |change (num (VFloat q)) with q in *].
  - by eexists.
  - pose proof half_unit_pos. pose proof half_unit_tiny. pose proof tiny_small.
    pose proof big_huge. pose proof big_large.
    assert (0 < eps ∧ eps <= 1 # 1000000)%Q as [He He'] by (unfold eps; split; qconst).
    destruct (round64_in_range q big) as (x1 & -> & Hx1 & Hx1'); [lra|lra|lra|].
    cbn [fadd].
    assert (inject_Z k == 1 ∨ inject_Z k == -1)%Q as Hk'.
    { destruct Hk as [-> | ->]; [left|right]; reflexivity. }
    destruct (round64_in_range (x1 + inject_Z k) (big * (3 # 2))) as (x & -> & _);
      [destruct Hk'; nra|destruct Hk'; nra|lra|].
    by exists (VFloat x).
Qed.

(** ** The limits of the primary axes *)

Lemma finite_no_text (s : Series) :
  Forall (λ v, finite v) s → has_text s = false ∧ numbers s = s.
Proof.
  intros Hs.
  assert (has_text s = false) as Ht.
  { unfold has_text. induction Hs as [|v s Hv _ IH]; [done|].
    simpl. rewrite IH. by destruct v. }
  split; [done|].
  pose proof (numeric_finite s Hs) as H1.
  rewrite (numeric_no_text s Ht) in H1. by injection H1.
Qed.

(** Neither operation raises on a cell that is not text. *)
Lemma mul_float_total (v : value) (f : Q) :
  is_text v = false → ∃ n, mul_float v f = Ok n.
Proof. destruct v; [by eexists..|done]. Qed.

Lemma add_int_total (v : value) (k : Z) :
  is_text v = false → ∃ n, add_int v k = Ok n.
Proof. destruct v; [by eexists..|done]. Qed.

Lemma reduce_no_text (s : Series) :
  has_text s = false →
  is_text (reduce value_min (numbers s)) = false
  ∧ is_text (reduce value_max (numbers s)) = false.
Proof.
  intros H. destruct (reduce_cases s H) as [(_ & -> & ->)|(_ & Hlo & Hhi)]; [done|].
  split; [by destruct (reduce value_min _)|by destruct (reduce value_max _)].
Qed.

Ltac plot_steps :=
  repeat first
    [ rewrite bind_Ok
    | match goal with
      | H : scatter_loop _ = Ok _ |- _ => rewrite H
      | H : cols ?df !! ?c = Some _ |- context [getitem ?df ?c] =>
          rewrite (getitem_Some _ _ _ H)
      | H : has_text ?s = false |- context [numeric ?s] => rewrite (numeric_no_text s H)
      | H : has_text ?s = true |- context [numeric ?s] => rewrite (numeric_text s H)
      | H : mul_float ?v ?f = Ok _ |- context [mul_float ?v ?f] => rewrite H
      | H : add_int ?v ?k = Ok _ |- context [add_int ?v ?k] => rewrite H
      end ].

(** The Renderer after its loop, on columns without text: the four limits
    are computed, and the figure is returned when all four are finite
    numbers; otherwise [set_xlim] or [set_ylim] raises [ValueError]. *)
Lemma plot_hr_diagram_limits (df : DataFrame) (series : list call) (temps mvs : Series) :
  scatter_loop df = Ok series →
  cols df !! "Temperature (K)" = Some temps →
  cols df !! "Absolute magnitude(Mv)" = Some mvs →
  has_text temps = false → has_text mvs = false →
  ∃ temp_min temp_max mv_min mv_max : number,
    mul_float (reduce value_min (numbers temps)) (9 # 10) = Ok temp_min ∧
    mul_float (reduce value_max (numbers temps)) (11 # 10) = Ok temp_max ∧
    add_int (reduce value_min (numbers mvs)) (-1) = Ok mv_min ∧
    add_int (reduce value_max (numbers mvs)) 1 = Ok mv_max ∧
    plot_hr_diagram df =
      match temp_min, temp_max, mv_min, mv_max with
      | Fin a, Fin b, Fin c, Fin d =>
          if finite a && finite b && finite c && finite d
          then Ok (figure_of series a b c d)
          else Raise ValueError
      | _, _, _, _ => Raise ValueError
      end.
Proof.
  intros Hloop Ht Hm Htt Hmt.
  destruct (reduce_no_text temps Htt) as [Htlo Hthi].
  destruct (reduce_no_text mvs Hmt) as [Hmlo Hmhi].
  destruct (mul_float_total _ (9 # 10) Htlo) as [temp_min Ha].
  destruct (mul_float_total _ (11 # 10) Hthi) as [temp_max Hb].
  destruct (add_int_total _ (-1) Hmlo) as [mv_min Hc].
  destruct (add_int_total _ 1 Hmhi) as [mv_max Hd].
  exists temp_min, temp_max, mv_min, mv_max. do 4 (split; [done|]).
  unfold plot_hr_diagram, series_min, series_max. plot_steps.
  unfold create_spectral_class_axis. rewrite create_luminosity_axis_calls.
  destruct temp_min as [a|], temp_max as [b|], mv_min as [c|], mv_max as [d|];
    try reflexivity;
    rewrite ?set_xlim_Fin, ?set_ylim_Fin;
    try (destruct (finite a), (finite b); reflexivity).
  change ((Fin a, Fin b).1) with (Fin a). change ((Fin a, Fin b).2) with (Fin b).
  rewrite set_xlim_Fin.
  destruct (finite a), (finite b), (finite c), (finite d); reflexivity.
Qed.

(** With a text cell among the temperatures or the magnitudes. *)
Lemma plot_hr_diagram_text (df : DataFrame) (series : list call) (temps mvs : Series) :
  scatter_loop df = Ok series →
  cols df !! "Temperature (K)" = Some temps →
  cols df !! "Absolute magnitude(Mv)" = Some mvs →
  has_text temps || has_text mvs = true →
  plot_hr_diagram df = Raise TypeError.
Proof.
  intros Hloop Ht Hm Htext. unfold plot_hr_diagram, series_min, series_max.
  destruct (has_text temps) eqn:Htt; [by plot_steps|].
  simpl in Htext.
  destruct (reduce_no_text temps Htt) as [Hlo Hhi].
  destruct (mul_float_total _ (9 # 10) Hlo) as [a Ha].
  destruct (mul_float_total _ (11 # 10) Hhi) as [b Hb].
  by plot_steps.
Qed.

(** Without text, but with no temperature or no magnitude left. *)
Lemma plot_hr_diagram_all_missing (df : DataFrame) (series : list call) (temps mvs : Series) :
  scatter_loop df = Ok series →
  cols df !! "Temperature (K)" = Some temps →
  cols df !! "Absolute magnitude(Mv)" = Some mvs →
  has_text temps = false → has_text mvs = false →
  numbers temps = [] ∨ numbers mvs = [] →
  plot_hr_diagram df = Raise ValueError.
Proof.
  intros Hloop Ht Hm Htt Hmt Hnone.
  destruct (plot_hr_diagram_limits df series temps mvs)
    as (a & b & c & d & Ha & Hb & Hc & Hd & ->); try done.
  destruct Hnone as [Hn|Hn]; rewrite Hn in *.
  - injection Ha as <-. injection Hb as <-. by destruct c, d.
  - injection Hc as <-. injection Hd as <-.
    destruct a as [a|], b as [b|]; try done.
    by destruct (finite a), (finite b).
Qed.

(** Without text and with a number of magnitude at most 1e308 left in
    both columns: missing cells are skipped. *)
Lemma plot_hr_diagram_skipna (df : DataFrame) (series : list call) (temps mvs : Series) :
  scatter_loop df = Ok series →
  cols df !! "Temperature (K)" = Some temps →
  cols df !! "Absolute magnitude(Mv)" = Some mvs →
  has_text temps = false → has_text mvs = false →
  numbers temps ≠ [] → numbers mvs ≠ [] →
  Forall (bounded big) (numbers temps) → Forall (bounded big) (numbers mvs) →
  ∃ temp_min temp_max mv_min mv_max : value,
    mul_float (reduce value_min (numbers temps)) (9 # 10) = Ok (Fin temp_min) ∧
    mul_float (reduce value_max (numbers temps)) (11 # 10) = Ok (Fin temp_max) ∧
    add_int (reduce value_min (numbers mvs)) (-1) = Ok (Fin mv_min) ∧
    add_int (reduce value_max (numbers mvs)) 1 = Ok (Fin mv_max) ∧
    plot_hr_diagram df = Ok (figure_of series temp_min temp_max mv_min mv_max).
Proof.
  intros Hloop Ht Hm Htt Hmt Htne Hmne Htb Hmb.
  destruct (reduce_cases temps Htt) as [(Hte & _)|(_ & Hlo & Hhi)]; [done|].
  destruct (reduce_cases mvs Hmt) as [(Hme & _)|(_ & Hmlo & Hmhi)]; [done|].
  rewrite Forall_forall in Htb, Hmb.
  destruct (Htb _ (proj1 (reduce_min_spec _ Htne))) as [? ?].
  destruct (Htb _ (proj1 (reduce_max_spec _ Htne))) as [? ?].
  destruct (Hmb _ (proj1 (reduce_min_spec _ Hmne))) as [? ?].
  destruct (Hmb _ (proj1 (reduce_max_spec _ Hmne))) as [? ?].
  destruct (mul_float_in_range _ (9 # 10) Hlo) as [a Ha]; [done|done|lra|lra|].
  destruct (mul_float_in_range _ (11 # 10) Hhi) as [b Hb]; [done|done|lra|lra|].
  destruct (add_int_in_range _ (-1) Hmlo) as (c & Hc & Hfc); [done|done|by right|].
  destruct (add_int_in_range _ 1 Hmhi) as (d & Hd & Hfd); [done|done|by left|].
  exists (VFloat a), (VFloat b), c, d. do 4 (split; [done|]).
  destruct (plot_hr_diagram_limits df series temps mvs)
    as (a' & b' & c' & d' & Ha' & Hb' & Hc' & Hd' & ->); try done.
  rewrite Ha in Ha'. injection Ha' as <-.
  rewrite Hb in Hb'. injection Hb' as <-.
  rewrite Hc in Hc'. injection Hc' as <-.
  rewrite Hd in Hd'. injection Hd' as <-.
  by destruct (finite c), (finite d).
Qed.

(** The same on columns without missing cells. *)
Lemma plot_hr_diagram_numeric (df : DataFrame) (series : list call) (temps mvs : Series) :
  scatter_loop df = Ok series →
  cols df !! "Temperature (K)" = Some temps →
  cols df !! "Absolute magnitude(Mv)" = Some mvs →
  temps ≠ [] → mvs ≠ [] →
  Forall (λ v, finite v) temps → Forall (λ v, finite v) mvs →
  Forall (bounded big) temps → Forall (bounded big) mvs →
  ∃ temp_min temp_max mv_min mv_max : value,
    mul_float (reduce value_min temps) (9 # 10) = Ok (Fin temp_min) ∧
    mul_float (reduce value_max temps) (11 # 10) = Ok (Fin temp_max) ∧
    add_int (reduce value_min mvs) (-1) = Ok (Fin mv_min) ∧
    add_int (reduce value_max mvs) 1 = Ok (Fin mv_max) ∧
    plot_hr_diagram df = Ok (figure_of series temp_min temp_max mv_min mv_max).
Proof.
  intros Hloop Ht Hm Htne Hmne Htf Hmf Htb Hmb.
  destruct (finite_no_text temps Htf) as [Htt Hnt].
  destruct (finite_no_text mvs Hmf) as [Hmt Hnm].
  pose proof (plot_hr_diagram_skipna df series temps mvs Hloop Ht Hm Htt Hmt) as H.
  rewrite Hnt, Hnm in H. by apply H.
Qed.


(** Adding or subtracting 1 keeps the ends of a column of magnitudes of at
    most 1e15 in order. *)
Lemma margins_ordered (faintest brightest bottom top : value) :
  finite faintest → finite brightest →
  bounded small faintest → bounded small brightest →
  (num brightest <= num faintest)%Q →
  add_int faintest 1 = Ok (Fin bottom) →
  add_int brightest (-1) = Ok (Fin top) →
  (num bottom - (num faintest + 1) <= 1 # 4)%Q
  ∧ (num faintest + 1 - num bottom <= 1 # 4)%Q
  ∧ (num top - (num brightest - 1) <= 1 # 4)%Q
  ∧ (num brightest - 1 - num top <= 1 # 4)%Q
  ∧ (∀ z, faintest = VInt z → bottom = VInt (z + 1))
  ∧ (∀ z, brightest = VInt z → top = VInt (z - 1))
  ∧ (num top < num bottom)%Q.
Proof.
  intros Hff Hfb [? ?] [? ?] Hord Hb Ht.
  destruct (add_int_small faintest 1 Hff) as (b & Hb' & _ & Hb1 & Hb2 & Hbz);
    [done|done|by left|].
  destruct (add_int_small brightest (-1) Hfb) as (t & Ht' & _ & Ht1 & Ht2 & Htz);
    [done|done|by right|].
  rewrite Hb' in Hb. injection Hb as <-.
  rewrite Ht' in Ht. injection Ht as <-.
  change (inject_Z 1) with 1%Q in *. change (inject_Z (-1)) with (-1)%Q in *.
  repeat split; try lra; done.
Qed.

Lemma bounded_small_big (v : value) : bounded small v → bounded big v.
Proof.
  intros [? ?].
  assert (small <= big)%Q by (unfold small, big; qconst).
  split; lra.
Qed.

(** ** The Renderer on a classified dataset *)

(** A dataset whose star types are all in the table: its classification and
    its scatter series. *)
Lemma classify_and_scatter (df : DataFrame) (st temps mvs : Series) (codes : list Z) :
  cols df !! "Star type" = Some st →
  cols df !! "Temperature (K)" = Some temps →
  cols df !! "Absolute magnitude(Mv)" = Some mvs →
  Forall2 has_code st codes →
  Forall (λ c, 0 ≤ c ≤ 5) codes →
  ∃ es,
    length es = length st ∧
    Forall in_table es ∧
    map_star_types df = Ok (classified df es) ∧
    cols (classified df es) !! "Temperature (K)" = Some temps ∧
    cols (classified df es) !! "Absolute magnitude(Mv)" = Some mvs ∧
    scatter_loop (classified df es) =
      Ok (scatter_of (item0 <$> es) temps mvs <$> dedup_from [] es).
Proof.
  intros Hst Ht Hm Hcodes Hrange.
  destruct (entries_of_codes st codes Hcodes Hrange) as (es & Hes & _).
  pose proof (entries_in_table _ _ Hes) as Htab.
  exists es.
  split; [symmetry; eapply Forall2_length, Hes|].
  split; [done|].
  split; [by eapply map_star_types_entries|].
  rewrite !classified_lookup. simpl.
  split; [done|]. split; [done|].
  by apply scatter_loop_classified.
Qed.

(** C4. On a classified dataset the loop draws one scatter series per
    distinct star-type label, in order of first appearance: the series of a
    label holds the temperatures and magnitudes of exactly the rows bearing
    that label (as many points as there are such rows), in the color the
    fixed table gives that label, with the marker size of the first row of
    the group, which is the table's size for the label. These are the scatter
    series of every figure the Renderer returns for the dataset, and the
    Renderer does return a figure with them when the dataset has a row and its
    temperatures and magnitudes are numbers of magnitude at most 1e308. *)
Theorem scatter_series_per_label (df : DataFrame) (st temps mvs : Series) (codes : list Z) :
  wf_frame df →
  cols df !! "Star type" = Some st →
  cols df !! "Temperature (K)" = Some temps →
  cols df !! "Absolute magnitude(Mv)" = Some mvs →
  Forall2 has_code st codes →
  Forall (λ c, 0 ≤ c ≤ 5) codes →
  ∃ df' labels sizes series,
    map_star_types df = Ok df' ∧
    cols df' !! "Star type label" = Some labels ∧
    cols df' !! "Marker size" = Some sizes ∧
    scatter_loop df' = Ok series ∧
    (∀ fig, plot_hr_diagram df' = Ok fig → series_of (ax fig) = series) ∧
    (nrows df ≠ 0%nat →
     Forall (λ v, finite v) temps → Forall (λ v, finite v) mvs →
     Forall (bounded big) temps → Forall (bounded big) mvs →
     ∃ fig, plot_hr_diagram df' = Ok fig ∧ series_of (ax fig) = series) ∧
    NoDup (unique labels) ∧
    (∀ l, l ∈ unique labels ↔ l ∈ labels) ∧
    length series = length (unique labels) ∧
    (∀ i l, unique labels !! i = Some l →
       ∃ c name size color,
         fixed_table c = Some (name, size, color) ∧
         l = VStr name ∧
         series !! i =
           Some (Scatter (rows_with l labels temps) (rows_with l labels mvs)
                         (VStr color) (VInt size) l (7 # 10) "black" (1 # 2)) ∧
         length (rows_with l labels temps) = length (filter (λ x, x = l) labels) ∧
         length (rows_with l labels mvs) = length (filter (λ x, x = l) labels) ∧
         head (rows_with l labels sizes) = Some (VInt size)).
Proof.
  intros Hwf Hst Ht Hm Hcodes Hrange.
  destruct (classify_and_scatter df st temps mvs codes) as
    (es & Hlen & Htab & Hcl & Ht' & Hm' & Hloop); try done.
  pose proof (Hwf _ _ Hst) as Hlst. pose proof (Hwf _ _ Ht) as Hlt.
  pose proof (Hwf _ _ Hm) as Hlm. simpl in Hlst, Hlt, Hlm.
  pose proof (dedup_from_spec [] es) as [Hnd Hmem].
  exists (classified df es), (item0 <$> es), (item1 <$> es),
    (scatter_of (item0 <$> es) temps mvs <$> dedup_from [] es).
  split; [done|].
  rewrite !classified_lookup. simpl.
  do 3 (split; [done|]).
  split; [intros fig; by apply plot_hr_diagram_series|].
  split.
  { intros Hrows Htf Hmf Htb Hmb.
    assert (temps ≠ []) as Htne by (intros ->; simpl in Hlt; congruence).
    assert (mvs ≠ []) as Hmne by (intros ->; simpl in Hlm; congruence).
    destruct (plot_hr_diagram_numeric _ _ temps mvs Hloop)
      as (a & b & c & d & _ & _ & _ & _ & Hplot); try done.
    eexists. split; [exact Hplot|]. by eapply plot_hr_diagram_series. }
  rewrite (unique_field item0 item0_text item0_inj) by done.
  rewrite Forall_forall in Htab.
  split.
  { apply NoDup_fmap_2_strong; [|done].
    intros e1 e2 H1%Hmem H2%Hmem. apply item0_inj; apply Htab; tauto. }
  split.
  { intros l. rewrite !list_elem_of_fmap. split; intros (e & -> & He); exists e.
    - split; [done|]. apply Hmem in He. tauto.
    - split; [done|]. apply Hmem. split; [done|]. apply not_elem_of_nil. }
  split; [by rewrite !length_fmap|].
  intros i l Hi. rewrite list_lookup_fmap in Hi.
  destruct (dedup_from [] es !! i) as [e|] eqn:He; [|done].
  injection Hi as <-.
  assert (e ∈ es) as Hin.
  { apply list_elem_of_lookup_2 in He. apply Hmem in He. tauto. }
  destruct (Htab e Hin) as [c Hc].
  destruct e as [[name size] color].
  exists c, name, size, color.
  split; [done|]. split; [done|].
  split; [by rewrite list_lookup_fmap, He|].
  rewrite !length_rows_with by (rewrite length_fmap; congruence).
  do 2 (split; [done|]).
  change (VStr name) with (item0 (name, size, color)).
  rewrite (rows_with_field item1 es (name, size, color)
             ltac:(by apply Forall_forall) ltac:(by exists c)).
  pose proof (head_filter_eq es _ Hin) as Hhead.
  destruct (filter (λ x, x = (name, size, color)) es) as [|y ys]; [done|].
  injection Hhead as ->. reflexivity.
Qed.

Lemma scatter_series_per_label_witness :
  ∃ df' labels series fig,
    map_star_types stars = Ok df' ∧
    cols df' !! "Star type label" = Some labels ∧
    scatter_loop df' = Ok series ∧
    length series = length (unique labels) ∧
    plot_hr_diagram df' = Ok fig ∧
    series_of (ax fig) = series.
Proof.
  destruct (scatter_series_per_label stars
              [VInt 3; VInt 0; VInt 3]
              [VInt 5778; VInt 3000; VInt 9000]
              [VFloat (483 # 100); VFloat 10; VFloat 1]
              [3; 0; 3])
    as (df' & labels & sizes & series & Hcl & Hl & _ & Hloop & _ & Hfig & _ & _ & Hlen & _).
  - apply (bool_decide_unpack (wf_frame stars)). vm_compute. exact I.
  - vm_compute. reflexivity.
  - vm_compute. reflexivity.
  - vm_compute. reflexivity.
  - repeat constructor.
  - repeat constructor; lia.
  - destruct Hfig as (fig & Hplot & Hseries).
    + vm_compute. lia.
    + repeat constructor.
    + repeat constructor.
    + repeat constructor; qconst.
    + repeat constructor; qconst.
    + exists df', labels, series, fig. auto 10.
Defined.

(** The pipeline on a dataset with rows, whose temperatures and magnitudes
    are numbers of magnitude at most 1e308, reaches the end, with this
    figure. *)
Lemma pipeline_figure (df : DataFrame) (st temps mvs : Series) (codes : list Z) :
  wf_frame df →
  nrows df ≠ 0%nat →
  cols df !! "Star type" = Some st →
  cols df !! "Temperature (K)" = Some temps →
  cols df !! "Absolute magnitude(Mv)" = Some mvs →
  Forall2 has_code st codes →
  Forall (λ c, 0 ≤ c ≤ 5) codes →
  Forall (λ v, finite v) temps →
  Forall (λ v, finite v) mvs →
  Forall (bounded big) temps →
  Forall (bounded big) mvs →
  ∃ df' series (temp_min temp_max mv_min mv_max : value),
    map_star_types df = Ok df' ∧
    scatter_loop df' = Ok series ∧
    temps ≠ [] ∧ mvs ≠ [] ∧
    mul_float (reduce value_min temps) (9 # 10) = Ok (Fin temp_min) ∧
    mul_float (reduce value_max temps) (11 # 10) = Ok (Fin temp_max) ∧
    add_int (reduce value_min mvs) (-1) = Ok (Fin mv_min) ∧
    add_int (reduce value_max mvs) 1 = Ok (Fin mv_max) ∧
    plot_hr_diagram df' = Ok (figure_of series temp_min temp_max mv_min mv_max).
Proof.
  intros Hwf Hrows Hst Ht Hm Hcodes Hrange Htf Hmf Htb Hmb.
  destruct (classify_and_scatter df st temps mvs codes) as
    (es & _ & _ & Hcl & Ht' & Hm' & Hloop); try done.
  pose proof (Hwf _ _ Ht) as Hlt. pose proof (Hwf _ _ Hm) as Hlm.
  simpl in Hlt, Hlm.
  assert (temps ≠ []) as Htne by (intros ->; simpl in Hlt; congruence).
  assert (mvs ≠ []) as Hmne by (intros ->; simpl in Hlm; congruence).
  destruct (plot_hr_diagram_numeric _ _ temps mvs Hloop)
    as (a & b & c & d & ? & ? & ? & ? & ?); try done.
  by eexists _, _, a, b, c, d.
Qed.




(** C6, as stated, fails on an upload of one star whose magnitude is the
    smallest int64, -2^63: the magnitude minus 1 wraps around to 2^63 - 1, so
    the second limit is not the smallest magnitude minus 1 and the first
    limit, -2^63 + 1, is the smaller one. *)
Lemma primary_ylim_not_inverted :
  ∃ df' fig,
    map_star_types star_int64_min = Ok df' ∧
    cols df' !! "Absolute magnitude(Mv)" = Some [VInt (- 2 ^ 63)] ∧
    plot_hr_diagram df' = Ok fig ∧
    ylim_of (ax fig) = Some (VInt (- 9223372036854775807), VInt 9223372036854775807) ∧
    ¬ (num (VInt 9223372036854775807) < num (VInt (- 9223372036854775807)))%Q.
Proof.
  eexists _, _.
  split; [vm_compute; reflexivity|].
  split; [vm_compute; reflexivity|].
  split; [vm_compute; reflexivity|].
  split; [vm_compute; reflexivity|].
  unfold Qlt. vm_compute. discriminate.
Qed.

(** C6, amended. For a classified dataset with at least one row, whose
    temperatures are numbers of magnitude at most 1e308 and whose magnitudes
    are numbers of magnitude at most 1e15, the Renderer sets no scale on the
    primary vertical axis, which so stays linear, inverts it, and passes to
    [set_ylim], in this order, the largest magnitude plus 1 and the smallest
    magnitude minus 1, as int64 or binary64 arithmetic gives them: exact on
    integers, within 1/4 on floats. The first limit is the greater one. *)
Theorem primary_ylim_inverted (df : DataFrame) (st temps mvs : Series) (codes : list Z) :
  wf_frame df →
  nrows df ≠ 0%nat →
  cols df !! "Star type" = Some st →
  cols df !! "Temperature (K)" = Some temps →
  cols df !! "Absolute magnitude(Mv)" = Some mvs →
  Forall2 has_code st codes →
  Forall (λ c, 0 ≤ c ≤ 5) codes →
  Forall (λ v, finite v) temps →
  Forall (λ v, finite v) mvs →
  Forall (bounded big) temps →
  Forall (bounded small) mvs →
  ∃ df' fig (faintest brightest bottom top : value),
    map_star_types df = Ok df' ∧
    plot_hr_diagram df' = Ok fig ∧
    is_max faintest mvs ∧
    is_min brightest mvs ∧
    add_int faintest 1 = Ok (Fin bottom) ∧
    add_int brightest (-1) = Ok (Fin top) ∧
    ylim_of (ax fig) = Some (bottom, top) ∧
    (num bottom - (num faintest + 1) <= 1 # 4)%Q ∧
    (num faintest + 1 - num bottom <= 1 # 4)%Q ∧
    (num top - (num brightest - 1) <= 1 # 4)%Q ∧
    (num brightest - 1 - num top <= 1 # 4)%Q ∧
    (∀ z, faintest = VInt z → bottom = VInt (z + 1)) ∧
    (∀ z, brightest = VInt z → top = VInt (z - 1)) ∧
    (num top < num bottom)%Q ∧
    yscale_of (ax fig) = Linear ∧
    (∀ sc, SetYscale sc ∉ ax fig) ∧
    InvertYaxis ∈ ax fig.
Proof.
  intros Hwf Hrows Hst Ht Hm Hcodes Hrange Htf Hmf Htb Hmb.
  destruct (pipeline_figure df st temps mvs codes) as
    (df' & series & tmin & tmax & mmin & mmax
     & Hcl & Hloop & Htne & Hmne & _ & _ & Hlo & Hhi & Hplot);
    try done.
  { eapply Forall_impl; [exact Hmb|]. apply bounded_small_big. }
  pose proof (reduce_max_spec mvs Hmne) as Hmax.
  pose proof (reduce_min_spec mvs Hmne) as Hmin.
  pose proof (scatter_loop_scatter _ _ Hloop) as Hsc.
  eexists df', _, (reduce value_max mvs), (reduce value_min mvs), mmax, mmin.
  split; [done|]. split; [exact Hplot|].
  split; [done|]. split; [done|].
  split; [done|]. split; [done|].
  split.
  { cbn [ax figure_of]. unfold primary_calls, ylim_of. skip_scatters Hsc. reflexivity. }
  assert (yscale_of (ax (figure_of series tmin tmax mmin mmax)) = Linear
          ∧ (∀ sc, SetYscale sc ∉ ax (figure_of series tmin tmax mmin mmax))
          ∧ InvertYaxis ∈ ax (figure_of series tmin tmax mmin mmax)) as Hscale.
  { split.
    { cbn [ax figure_of]. unfold primary_calls, yscale_of. skip_scatters Hsc. reflexivity. }
    split.
    - intros sc. cbn [ax figure_of]. unfold primary_calls. rewrite elem_of_app.
      intros [Hin|Hin].
      + rewrite Forall_forall in Hsc. by apply Hsc in Hin.
      + apply list_elem_of_In in Hin. simpl in Hin.
        repeat (destruct Hin as [Hin|Hin]; [discriminate Hin|]). done.
    - cbn [ax figure_of]. unfold primary_calls. rewrite elem_of_app. right.
      apply list_elem_of_In. simpl. tauto. }
  rewrite Forall_forall in Hmf, Hmb.
  destruct Hmax as [Hin Hle], Hmin as [Hin' Hle'].
  destruct (margins_ordered _ _ _ _ (Hmf _ Hin) (Hmf _ Hin') (Hmb _ Hin) (Hmb _ Hin')
              (Hle _ Hin') Hhi Hlo)
    as (? & ? & ? & ? & ? & ? & ?).
  destruct Hscale as (? & ? & ?).
  repeat (split; [done|]). done.
Qed.

Lemma primary_ylim_inverted_witness :
  ∃ df' fig bottom top,
    map_star_types stars = Ok df' ∧
    plot_hr_diagram df' = Ok fig ∧
    ylim_of (ax fig) = Some (bottom, top) ∧
    (num top < num bottom)%Q ∧
    yscale_of (ax fig) = Linear.
Proof.
  destruct (primary_ylim_inverted stars
              [VInt 3; VInt 0; VInt 3]
              [VInt 5778; VInt 3000; VInt 9000]
              [VFloat (483 # 100); VFloat 10; VFloat 1]
              [3; 0; 3])
    as (df' & fig & hi & lo & bottom & top & Hcl & Hplot & _ & _ & _ & _ & Hlim
        & _ & _ & _ & _ & _ & _ & Hord & Hsc & _).
  - apply (bool_decide_unpack (wf_frame stars)). vm_compute. exact I.
  - vm_compute. lia.
  - vm_compute. reflexivity.
  - vm_compute. reflexivity.
  - vm_compute. reflexivity.
  - repeat constructor.
  - repeat constructor; lia.
  - repeat constructor.
  - repeat constructor.
  - repeat constructor; qconst.
  - repeat constructor; qconst.
  - exists df', fig, bottom, top. auto.
Defined.

(** ** The main script, case by case *)

Lemma emit_emit (s : session) (o1 o2 : list element) (t1 t2 : list stage) :
  emit (emit s o1 t1) o2 t2 = emit s (o1 ++ o2) (t1 ++ t2).
Proof. unfold emit; simpl. by rewrite !app_assoc. Qed.

Lemma emit_nil (s : session) : emit s [] [] = s.
Proof. destruct s. unfold emit; simpl. by rewrite !app_nil_r. Qed.

Lemma enter_emit (st : stage) (s : session) : enter st s = (Ok tt, emit s [] [st]).
Proof. unfold enter, emit. by rewrite app_nil_r. Qed.

Lemma show_emit (e : element) (s : session) : show e s = (Ok tt, emit s [e] []).
Proof. unfold show, emit. by rewrite app_nil_r. Qed.

Lemma lift_emit {A} (r : result A) (s : session) : lift r s = (r, emit s [] []).
Proof. unfold lift. by rewrite emit_nil. Qed.

(** The main script on an upload, case by case. *)
Lemma main_cases (UploadedFile : Type) (read_csv : UploadedFile → string + DataFrame)
    (f : UploadedFile) (s : session) :
  main UploadedFile read_csv (Some f) s =
    match read_csv f with
    | inl e => (Ok tt, emit s [StError ("Error loading data: " +:+ e)] [LoadData])
    | inr df =>
        if forallb (has_column df) required_columns then
          match map_star_types df with
          | Ok df' =>
              match plot_hr_diagram df' with
              | Ok fig =>
                  (Ok tt, emit s [StPyplot fig] [LoadData; MapStarTypes; PlotHrDiagram])
              | Raise e => (Raise e, emit s [] [LoadData; MapStarTypes; PlotHrDiagram])
              end
          | Raise e => (Raise e, emit s [] [LoadData; MapStarTypes])
          end
        else
          (Ok tt,
           emit s [StError "Dataset is missing one or more required columns."] [LoadData])
    end.
Proof.
  unfold main, load_data, app_bind, app_ret, enter, show, lift, emit.
  destruct (read_csv f) as [e|df]; [done|].
  destruct (forallb (has_column df) required_columns); [|done].
  cbn [negb].
  destruct (map_star_types df) as [df'|e]; simpl;
    [|by rewrite app_nil_r, <- app_assoc].
  destruct (plot_hr_diagram df') as [fig|e]; simpl;
    by rewrite ?app_nil_r, <- !app_assoc.
Qed.

(** ** Lookup failures *)

(** Either every cell finds its entry, or the first one that does not makes
    each of the three column maps raise the same [KeyError]. *)
Lemma subscript_all_or_raise (st : Series) :
  (∃ es, Forall2 (λ v e, subscript v = Ok e) st es)
  ∨ (∃ v, v ∈ st ∧ subscript v = Raise (KeyError v) ∧
       ∀ f, series_map (λ x, e ← subscript x; Ok (f e)) st = Raise (KeyError v)).
Proof.
  induction st as [|x st IH].
  - left. exists []. constructor.
  - destruct (subscript x) as [e|err] eqn:Hx.
    + destruct IH as [[es Hes]|(v & Hin & Hv & Hraise)].
      * left. exists (e :: es). by constructor.
      * right. exists v. split; [by right|]. split; [done|].
        intros f. simpl. by rewrite Hx, !bind_Ok, Hraise.
    + right. exists x.
      assert (err = KeyError x) as ->.
      { unfold subscript in Hx. destruct (_ ≫= _); congruence. }
      split; [left|]. split; [done|].
      intros f. simpl. by rewrite Hx.
Qed.

Lemma map_star_types_key_error (df : DataFrame) (st : Series) (v : value) :
  cols df !! "Star type" = Some st →
  (∀ f, series_map (λ x, e ← subscript x; Ok (f e)) st = Raise (KeyError v)) →
  map_star_types df = Raise (KeyError v).
Proof.
  intros Hst Hraise. unfold map_star_types.
  by rewrite (getitem_Some _ _ _ Hst), bind_Ok, Hraise.
Qed.

(** A cell whose code is not in the table makes [map_star_types] raise, and
    the main script lets the exception through with nothing on the page. *)
Lemma key_error_uncaught (UploadedFile : Type)
    (read_csv : UploadedFile → string + DataFrame)
    (f : UploadedFile) (df : DataFrame) (st : Series) (v : value) (c : Z) (s : session) :
  read_csv f = inr df →
  forallb (has_column df) required_columns = true →
  cols df !! "Star type" = Some st →
  v ∈ st → has_code v c → ¬ (0 ≤ c ≤ 5) →
  ∃ k, k ∈ st ∧ subscript k = Raise (KeyError k) ∧
    main UploadedFile read_csv (Some f) s =
      (Raise (KeyError k), emit s [] [LoadData; MapStarTypes]).
Proof.
  intros Hread Hcheck Hst Hin Hv Hc.
  destruct (subscript_all_or_raise st) as [[es Hes]|(k & Hk & Hsub & Hraise)].
  - exfalso. apply list_elem_of_lookup in Hin as [i Hi].
    destruct (Forall2_lookup_l _ _ _ _ _ Hes Hi) as (e & _ & He).
    by rewrite (subscript_no_code v c Hv Hc) in He.
  - exists k. split; [done|]. split; [done|].
    rewrite main_cases, Hread, Hcheck.
    by rewrite (map_star_types_key_error df st k Hst Hraise).
Qed.

(** C3. The upload [type_six] has every required column and one row whose
    star type is 6. The Loader accepts it; the lookup in [map_star_types]
    raises [KeyError] for the key 6; the main script does not handle it: the
    run ends with that exception, and nothing, neither an error message nor a
    figure, has been put on the page. *)
Theorem star_type_six_uncaught :
  load_data unit (parsed_as type_six) tt fresh = (Ok (Some type_six), fresh)
  ∧ map_star_types type_six = Raise (KeyError (VInt 6))
  ∧ main unit (parsed_as type_six) (Some tt) fresh =
      (Raise (KeyError (VInt 6)),
       {| page := []; entered := [LoadData; MapStarTypes] |}).
Proof. repeat split; vm_compute; reflexivity. Qed.

(** ** A dataset without rows *)

Lemma plot_hr_diagram_no_rows (df : DataFrame) (series : list call) :
  scatter_loop df = Ok series →
  cols df !! "Temperature (K)" = Some [] →
  cols df !! "Absolute magnitude(Mv)" = Some [] →
  plot_hr_diagram df = Raise ValueError.
Proof.
  intros Hloop Ht Hm. unfold plot_hr_diagram.
  rewrite Hloop, bind_Ok.
  rewrite (getitem_Some _ _ _ Ht), (getitem_Some _ _ _ Hm).
  reflexivity.
Qed.

Lemma required_column (df : DataFrame) (col : string) :
  forallb (has_column df) required_columns = true →
  col ∈ required_columns → is_Some (cols df !! col).
Proof.
  intros Hall Hin. rewrite forallb_forall in Hall.
  apply list_elem_of_In, Hall in Hin. by apply bool_decide_eq_true_1 in Hin.
Qed.

(** Every upload that passes the Loader with no row ends the same way: the
    Renderer raises [ValueError] at [set_xlim] and nothing is shown. *)
Lemma no_rows_uncaught (UploadedFile : Type)
    (read_csv : UploadedFile → string + DataFrame)
    (f : UploadedFile) (df : DataFrame) (s : session) :
  read_csv f = inr df →
  forallb (has_column df) required_columns = true →
  wf_frame df → nrows df = 0%nat →
  main UploadedFile read_csv (Some f) s =
    (Raise ValueError, emit s [] [LoadData; MapStarTypes; PlotHrDiagram]).
Proof.
  intros Hread Hcheck Hwf Hrows.
  assert (∀ col, col ∈ required_columns → cols df !! col = Some []) as Hcol.
  { intros col Hin. destruct (required_column df col Hcheck Hin) as [c Hc].
    pose proof (Hwf _ _ Hc) as Hlen. simpl in Hlen. rewrite Hrows in Hlen.
    apply length_zero_iff_nil in Hlen. by subst. }
  assert (cols df !! "Star type" = Some []) as Hst
    by (apply Hcol; unfold required_columns; set_solver).
  assert (cols df !! "Temperature (K)" = Some []) as Ht
    by (apply Hcol; unfold required_columns; set_solver).
  assert (cols df !! "Absolute magnitude(Mv)" = Some []) as Hm
    by (apply Hcol; unfold required_columns; set_solver).
  rewrite main_cases, Hread, Hcheck.
  rewrite (map_star_types_entries df [] [] Hst) by constructor.
  erewrite plot_hr_diagram_no_rows; [done| | |].
  - by apply (scatter_loop_classified df [] []).
  - by rewrite classified_lookup.
  - by rewrite classified_lookup.
Qed.

(** C8. The upload [header_only] has the five required columns and no
    row. The Loader accepts it, the Classifier returns a frame whose three
    derived columns are empty, and the loop of the Renderer draws no series.
    The minimum and maximum of the empty temperature column are nan, and
    [set_xlim] refuses them: the Renderer raises [ValueError] and returns no
    figure, the main script ends with that exception and shows nothing. *)
Theorem header_only_no_figure :
  load_data unit (parsed_as header_only) tt fresh = (Ok (Some header_only), fresh)
  ∧ (∃ df', map_star_types header_only = Ok df'
       ∧ nrows df' = 0%nat
       ∧ cols df' !! "Star type label" = Some []
       ∧ cols df' !! "Marker size" = Some []
       ∧ cols df' !! "Color" = Some []
       ∧ scatter_loop df' = Ok []
       ∧ plot_hr_diagram df' = Raise ValueError)
  ∧ main unit (parsed_as header_only) (Some tt) fresh =
      (Raise ValueError,
       {| page := []; entered := [LoadData; MapStarTypes; PlotHrDiagram] |}).
Proof.
  split; [vm_compute; reflexivity|]. split.
  - exists (classified header_only []).
    repeat split; vm_compute; reflexivity.
  - vm_compute. reflexivity.
Qed.

(** ** Classifying twice *)

Lemma classified_idem (df : DataFrame) (es : list (string * Z * string)) :
  classified (classified df es) es = classified df es.
Proof.
  destruct df as [n m]. unfold classified, setitem; simpl. f_equal.
  apply map_eq. intros c. rewrite !lookup_insert.
  repeat case_decide; congruence.
Qed.

(** Classifying a classified frame again changes nothing. *)
Lemma map_star_types_idem (df : DataFrame) :
  (map_star_types df ≫= map_star_types) = map_star_types df.
Proof.
  destruct (cols df !! "Star type") as [st|] eqn:Hst.
  - destruct (subscript_all_or_raise st) as [[es Hes]|(v & _ & _ & Hraise)].
    + rewrite (map_star_types_entries df st es Hst Hes), bind_Ok.
      rewrite (map_star_types_entries (classified df es) st es);
        [by rewrite classified_idem| |done].
      by rewrite classified_lookup.
    + by rewrite (map_star_types_key_error df st v Hst Hraise).
  - unfold map_star_types at 2 3. unfold getitem. by rewrite Hst.
Qed.

(** ** The luminosity column *)

Lemma getitem_agree (df1 df2 : DataFrame) (c : string) :
  same_but_luminosity df1 df2 → c ≠ "Luminosity(L/Lo)" →
  getitem df1 c = getitem df2 c.
Proof. intros [_ H] Hc. unfold getitem. by rewrite (H c Hc). Qed.

Lemma setitem_agree (df1 df2 : DataFrame) (c : string) (s : Series) :
  same_but_luminosity df1 df2 →
  same_but_luminosity (setitem df1 c s) (setitem df2 c s).
Proof.
  intros [Hn H]. split; [done|]. intros c' Hc'. simpl.
  rewrite !lookup_insert. case_decide; auto.
Qed.

Lemma loc_mask_agree (df1 df2 : DataFrame) (mask : list bool) :
  same_but_luminosity df1 df2 →
  same_but_luminosity (loc_mask df1 mask) (loc_mask df2 mask).
Proof.
  intros [Hn H]. split; [done|]. intros c Hc. simpl.
  by rewrite !lookup_fmap, (H c Hc).
Qed.

Lemma empty_agree (df1 df2 : DataFrame) (c : string) :
  same_but_luminosity df1 df2 → c ≠ "Luminosity(L/Lo)" →
  is_Some (cols df1 !! c) →
  empty df1 = empty df2.
Proof.
  intros [Hn H] Hc [s Hs]. unfold empty. rewrite Hn. f_equal.
  assert (cols df2 !! c = Some s) as Hs2 by (by rewrite <- (H c Hc)).
  rewrite !bool_decide_eq_false_2; [done| |].
  - intros Hempty. by rewrite Hempty in Hs2.
  - intros Hempty. by rewrite Hempty in Hs.
Qed.

Lemma scatter_group_agree (df1 df2 : DataFrame) (sc : value * value) :
  same_but_luminosity df1 df2 → scatter_group df1 sc = scatter_group df2 sc.
Proof.
  intros Hsame. unfold scatter_group. destruct sc as [s_type color].
  rewrite <- (getitem_agree df1 df2 "Star type label") by done.
  destruct (getitem df1 "Star type label") as [labels|] eqn:Hg; [|done].
  rewrite !bind_Ok.
  assert (cols df1 !! "Star type label" = Some labels) as Hl.
  { unfold getitem in Hg. destruct (cols df1 !! "Star type label"); congruence. }
  pose proof (loc_mask_agree df1 df2 (eq_mask labels s_type) Hsame) as Hsub.
  rewrite <- (empty_agree _ _ "Star type label" Hsub) by
    (done || (simpl; rewrite lookup_fmap, Hl; by eexists)).
  destruct (empty _); [done|].
  by rewrite !(getitem_agree _ _ _ Hsub).
Qed.

Lemma for_each_ext {A} (f g : A → result (list call)) (l : list A) :
  (∀ a, f a = g a) → for_each f l = for_each g l.
Proof. intros Hfg. induction l as [|a l IH]; [done|]. simpl. by rewrite Hfg, IH. Qed.

Lemma scatter_loop_agree (df1 df2 : DataFrame) :
  same_but_luminosity df1 df2 → scatter_loop df1 = scatter_loop df2.
Proof.
  intros Hsame. unfold scatter_loop.
  rewrite !(getitem_agree df1 df2) by done.
  destruct (getitem df2 "Star type label"); [|done].
  destruct (getitem df2 "Color"); [|done].
  rewrite !bind_Ok. apply for_each_ext.
  intros sc. by apply scatter_group_agree.
Qed.

Lemma plot_hr_diagram_agree (df1 df2 : DataFrame) :
  same_but_luminosity df1 df2 → plot_hr_diagram df1 = plot_hr_diagram df2.
Proof.
  intros Hsame. unfold plot_hr_diagram.
  rewrite (scatter_loop_agree df1 df2 Hsame).
  by rewrite !(getitem_agree df1 df2) by done.
Qed.

Lemma map_star_types_agree (df1 df2 : DataFrame) :
  same_but_luminosity df1 df2 →
  match map_star_types df1, map_star_types df2 with
  | Ok df1', Ok df2' => same_but_luminosity df1' df2'
  | Raise e1, Raise e2 => e1 = e2
  | _, _ => False
  end.
Proof.
  intros Hsame.
  pose proof (proj2 Hsame "Star type" ltac:(done)) as Hst.
  destruct (cols df1 !! "Star type") as [st|] eqn:Hst1.
  - symmetry in Hst.
    destruct (subscript_all_or_raise st) as [[es Hes]|(v & _ & _ & Hraise)].
    + rewrite (map_star_types_entries df1 st es Hst1 Hes).
      rewrite (map_star_types_entries df2 st es Hst Hes).
      unfold classified. by repeat apply setitem_agree.
    + rewrite (map_star_types_key_error df1 st v Hst1 Hraise).
      by rewrite (map_star_types_key_error df2 st v Hst Hraise).
  - unfold map_star_types, getitem. by rewrite Hst1, <- Hst.
Qed.

(** C10. Two datasets with the same rows that differ at most in the
    cells of 'Luminosity(L/Lo)' are classified alike: both runs of the
    Classifier raise the same exception, or both return frames that again
    differ at most in that column, so with the same label, marker size and
    color columns. The Renderer then ends the same way on both, and when it
    returns a figure it is the same figure: same series, colors, sizes, axis
    limits and ticks. *)
Theorem luminosity_never_read (df1 df2 : DataFrame) :
  same_but_luminosity df1 df2 →
  match map_star_types df1, map_star_types df2 with
  | Ok df1', Ok df2' =>
      same_but_luminosity df1' df2'
      ∧ cols df1' !! "Star type label" = cols df2' !! "Star type label"
      ∧ cols df1' !! "Marker size" = cols df2' !! "Marker size"
      ∧ cols df1' !! "Color" = cols df2' !! "Color"
      ∧ plot_hr_diagram df1' = plot_hr_diagram df2'
  | Raise e1, Raise e2 => e1 = e2
  | _, _ => False
  end
  ∧ (map_star_types df1 ≫= plot_hr_diagram) = (map_star_types df2 ≫= plot_hr_diagram).
Proof.
  intros Hsame.
  pose proof (map_star_types_agree df1 df2 Hsame) as Hcl.
  destruct (map_star_types df1) as [df1'|e1], (map_star_types df2) as [df2'|e2];
    try done.
  - split.
    + split; [done|]. destruct Hcl as [Hn Hc].
      rewrite !Hc by done. repeat split; try done.
      by apply plot_hr_diagram_agree.
    + rewrite !bind_Ok. by apply plot_hr_diagram_agree.
  - by subst.
Qed.

Lemma luminosity_never_read_witness :
  (map_star_types stars ≫= plot_hr_diagram)
  = (map_star_types stars_dimmed ≫= plot_hr_diagram).
Proof.
  refine (proj2 (luminosity_never_read stars stars_dimmed _)).
  split; [reflexivity|].
  intros c Hc. unfold stars, stars_dimmed, frame; simpl.
  rewrite !lookup_insert.
  repeat case_decide; congruence.
Defined.

(** ** Further results: the Loader and the main script *)

(** X1. [load_data] never raises. It returns the parsed frame, unchanged
    and with nothing put on the page, exactly when pandas parses the upload
    and the five required columns are there; in every other case it returns
    [None] after one error message: the text of pandas' exception after
    "Error loading data: ", or the missing-columns message. *)
Theorem load_data_outcome (UploadedFile : Type)
    (read_csv : UploadedFile → string + DataFrame) (f : UploadedFile) (s : session) :
  ∃ r out,
    load_data UploadedFile read_csv f s = (Ok r, emit s out []) ∧
    match r with
    | Some df =>
        out = [] ∧ read_csv f = inr df ∧
        forallb (has_column df) required_columns = true
    | None =>
        match read_csv f with
        | inl e => out = [StError ("Error loading data: " +:+ e)]
        | inr df =>
            forallb (has_column df) required_columns = false ∧
            out = [StError "Dataset is missing one or more required columns."]
        end
    end.
Proof.
  unfold load_data.
  destruct (read_csv f) as [e|df] eqn:Hread.
  - exists None, [StError ("Error loading data: " +:+ e)].
    split; [|done]. unfold app_bind, app_ret. by rewrite show_emit.
  - destruct (forallb (has_column df) required_columns) eqn:Hall; cbn [negb].
    + exists (Some df), []. split; [|done]. unfold app_ret. by rewrite emit_nil.
    + exists None, [StError "Dataset is missing one or more required columns."].
      split; [|done]. unfold app_bind, app_ret. by rewrite show_emit.
Qed.

(** X2. When pandas raises on the upload, the main script shows one error
    message with the text of the exception, returns normally, and enters
    neither the Classifier nor the Renderer. *)
Theorem parse_failure_reported (UploadedFile : Type)
    (read_csv : UploadedFile → string + DataFrame)
    (f : UploadedFile) (e : string) (s : session) :
  read_csv f = inl e →
  main UploadedFile read_csv (Some f) s =
    (Ok tt, emit s [StError ("Error loading data: " +:+ e)] [LoadData]).
Proof. intros Hread. by rewrite main_cases, Hread. Qed.

Lemma parse_failure_reported_witness :
  main unit unreadable (Some tt) fresh =
    (Ok tt,
     emit fresh [StError "Error loading data: No columns to parse from file"] [LoadData]).
Proof. apply (parse_failure_reported unit unreadable tt). reflexivity. Defined.

(** X3. Whatever the upload, a run of the main script that returns has put
    exactly one element on the page, and a run that ends with an exception
    has put none. The stages it enters are a prefix of Loader, Classifier,
    Renderer. A figure is on the page only when the upload parsed with all
    required columns, the Classifier returned and the Renderer returned that
    figure. *)
Theorem main_page_invariant (UploadedFile : Type)
    (read_csv : UploadedFile → string + DataFrame)
    (uploaded_file : option UploadedFile) (s : session) :
  ∃ r out st,
    main UploadedFile read_csv uploaded_file s = (r, emit s out st) ∧
    match r with
    | Ok _ => length out = 1%nat
    | Raise _ => out = []
    end ∧
    st `prefix_of` [LoadData; MapStarTypes; PlotHrDiagram] ∧
    ∀ fig, StPyplot fig ∈ out →
      ∃ f df df',
        uploaded_file = Some f ∧ read_csv f = inr df ∧
        forallb (has_column df) required_columns = true ∧
        map_star_types df = Ok df' ∧ plot_hr_diagram df' = Ok fig.
Proof.
  destruct uploaded_file as [f|].
  - rewrite main_cases.
    destruct (read_csv f) as [e|df] eqn:Hread.
    { eexists _, _, _. split; [done|]. split; [done|].
      split; [by exists [MapStarTypes; PlotHrDiagram]|].
      intros fig Hin. apply list_elem_of_singleton in Hin. discriminate Hin. }
    destruct (forallb _ _) eqn:Hall.
    2:{ eexists _, _, _. split; [done|]. split; [done|].
        split; [by exists [MapStarTypes; PlotHrDiagram]|].
        intros fig Hin. apply list_elem_of_singleton in Hin. discriminate Hin. }
    destruct (map_star_types df) as [df'|e] eqn:Hcl.
    2:{ eexists _, _, _. split; [done|]. split; [done|].
        split; [by exists [PlotHrDiagram]|].
        intros fig Hin. by apply elem_of_nil in Hin. }
    destruct (plot_hr_diagram df') as [fig|e] eqn:Hplot.
    + eexists _, _, _. split; [done|]. split; [done|].
      split; [by exists []|].
      intros fig' Hin. apply list_elem_of_singleton in Hin. injection Hin as ->.
      by exists f, df, df'.
    + eexists _, _, _. split; [done|]. split; [done|].
      split; [by exists []|].
      intros fig Hin. by apply elem_of_nil in Hin.
  - exists (Ok tt), [StInfo "Please upload a CSV file to generate the H-R diagram."], [].
    split; [apply show_emit|]. split; [done|].
    split; [by eexists|].
    intros fig Hin. apply list_elem_of_singleton in Hin. discriminate Hin.
Qed.

(** ** Further results: the Classifier *)

Lemma subscript_Ok_iff (v : value) : (∃ e, subscript v = Ok e) ↔ table_cell v.
Proof.
  split.
  - intros [e He]. unfold subscript in He.
    destruct (dict_key v) as [c|] eqn:Hk; simpl in He; [|done].
    rewrite star_type_map_table in He.
    destruct (fixed_table c) eqn:Hc; [|done].
    exists c. split; [done|]. apply fixed_table_range. eauto.
  - intros (c & Hv & [e He]%fixed_table_range). exists e.
    by eapply subscript_code.
Qed.

(** Either every cell finds its entry, or the column splits at its first
    cell that does not. *)
Lemma subscript_first_failure (st : Series) :
  (∃ es, Forall2 (λ v e, subscript v = Ok e) st es)
  ∨ (∃ good k rest,
       st = good ++ k :: rest ∧ Forall table_cell good ∧ ¬ table_cell k ∧
       ∀ f, series_map (λ x, e ← subscript x; Ok (f e)) st = Raise (KeyError k)).
Proof.
  induction st as [|x st IH].
  - left. exists []. constructor.
  - destruct (subscript x) as [e|err] eqn:Hx.
    + destruct IH as [[es Hes]|(good & k & rest & -> & Hgood & Hk & Hraise)].
      * left. exists (e :: es). by constructor.
      * right. exists (x :: good), k, rest. split; [done|].
        split; [constructor; [apply subscript_Ok_iff; eauto|done]|].
        split; [done|].
        intros f. simpl. by rewrite Hx, !bind_Ok, Hraise.
    + right. exists [], x, st. split; [done|]. split; [constructor|].
      assert (err = KeyError x) as ->.
      { unfold subscript in Hx. destruct (_ ≫= _); congruence. }
      split.
      * intros [e He]%subscript_Ok_iff. congruence.
      * intros f. simpl. by rewrite Hx.
Qed.

(** X4. On a frame with a 'Star type' column the Classifier returns exactly
    when every cell of that column carries a code of the table (an int, or a
    float with an integral value, in 0..5). Otherwise it raises [KeyError]
    with the first cell, in row order, that does not: a code outside 0..5, a
    fractional number, a missing value or text. *)
Theorem map_star_types_succeeds_iff (df : DataFrame) (st : Series) :
  cols df !! "Star type" = Some st →
  ((∃ df', map_star_types df = Ok df') ↔ Forall table_cell st)
  ∧ (∀ e, map_star_types df = Raise e →
       ∃ good k rest,
         st = good ++ k :: rest ∧ Forall table_cell good ∧ ¬ table_cell k ∧
         e = KeyError k).
Proof.
  intros Hst.
  destruct (subscript_first_failure st)
    as [[es Hes]|(good & k & rest & Heq & Hgood & Hk & Hraise)].
  - rewrite (map_star_types_entries df st es Hst Hes). split; [|done].
    split; [intros _|by eauto].
    apply Forall_forall. intros v [i Hi]%list_elem_of_lookup.
    destruct (Forall2_lookup_l _ _ _ _ _ Hes Hi) as (e & _ & He).
    apply subscript_Ok_iff. eauto.
  - rewrite (map_star_types_key_error df st k Hst Hraise). split.
    + split; [by intros [? ?]|].
      intros Hall. exfalso. apply Hk.
      rewrite Forall_forall in Hall. apply Hall. subst st. set_solver.
    + intros e [= <-]. by exists good, k, rest.
Qed.

Lemma map_star_types_succeeds_iff_witness :
  (∃ df', map_star_types type_six = Ok df') ↔ Forall table_cell [VInt 6].
Proof.
  refine (proj1 (map_star_types_succeeds_iff type_six [VInt 6] _)).
  vm_compute. reflexivity.
Defined.

(** What a returning run of the Classifier has returned. *)
Lemma map_star_types_inv (df df' : DataFrame) :
  map_star_types df = Ok df' →
  ∃ st es,
    cols df !! "Star type" = Some st ∧
    Forall2 (λ v e, subscript v = Ok e) st es ∧
    df' = classified df es.
Proof.
  intros Hrun.
  destruct (cols df !! "Star type") as [st|] eqn:Hst.
  - destruct (subscript_all_or_raise st) as [[es Hes]|(v & _ & _ & Hraise)].
    + rewrite (map_star_types_entries df st es Hst Hes) in Hrun.
      injection Hrun as <-. by exists st, es.
    + by rewrite (map_star_types_key_error df st v Hst Hraise) in Hrun.
  - unfold map_star_types, getitem in Hrun. by rewrite Hst in Hrun.
Qed.

(** X5. The Classifier keeps a frame well formed: when it returns, the
    frame has the same number of rows, every column (the three new ones
    included) has one cell per row, the columns are those of the input plus
    'Star type label', 'Marker size' and 'Color', and a frame that passed the
    Loader's column check still passes it. *)
Theorem map_star_types_keeps_frame (df df' : DataFrame) :
  wf_frame df →
  map_star_types df = Ok df' →
  wf_frame df' ∧
  nrows df' = nrows df ∧
  dom (cols df') = dom (cols df) ∪ {["Star type label"; "Marker size"; "Color"]} ∧
  (forallb (has_column df) required_columns = true →
   forallb (has_column df') required_columns = true).
Proof.
  intros Hwf Hrun.
  destruct (map_star_types_inv df df' Hrun) as (st & es & Hst & Hes & ->).
  pose proof (Hwf _ _ Hst) as Hlen. simpl in Hlen.
  assert (length es = nrows df) as Hles.
  { rewrite <- Hlen. symmetry. eapply Forall2_length, Hes. }
  split; [|split; [done|split]].
  - intros c s. rewrite classified_lookup. simpl.
    repeat case_decide; try (intros [= <-]; by rewrite length_fmap).
    apply Hwf.
  - unfold classified, setitem; simpl. rewrite !dom_insert_L. set_solver.
  - rewrite !forallb_forall. intros Hall col Hin.
    specialize (Hall col Hin). unfold has_column in *.
    apply bool_decide_eq_true_1 in Hall. apply bool_decide_eq_true_2.
    rewrite classified_lookup. repeat case_decide; eauto.
Qed.

Lemma map_star_types_keeps_frame_witness :
  wf_frame (classified stars
              [("Main Sequence", 50, "blue"); ("Red Dwarf", 30, "red");
               ("Main Sequence", 50, "blue")]).
Proof.
  refine (proj1 (map_star_types_keeps_frame stars _ _ _)).
  - apply (bool_decide_unpack (wf_frame stars)). vm_compute. exact I.
  - vm_compute. reflexivity.
Defined.

Lemma classified_setitem (df : DataFrame) (c : string) (junk : Series)
    (es : list (string * Z * string)) :
  c ∈ ["Star type label"; "Marker size"; "Color"] →
  classified (setitem df c junk) es = classified df es.
Proof.
  intros Hc. destruct df as [n m]. unfold classified, setitem; simpl. f_equal.
  apply map_eq. intros c'. rewrite !lookup_insert.
  repeat case_decide; subst; try done; set_solver.
Qed.

(** X6. A 'Star type label', 'Marker size' or 'Color' column that the
    upload already has is not read: the Classifier overwrites it, and gives
    the result it gives without that column's cells. *)
Theorem map_star_types_overwrites (df : DataFrame) (c : string) (junk : Series) :
  c ∈ ["Star type label"; "Marker size"; "Color"] →
  map_star_types (setitem df c junk) = map_star_types df.
Proof.
  intros Hc.
  assert (cols (setitem df c junk) !! "Star type" = cols df !! "Star type") as Hsame.
  { simpl. rewrite lookup_insert_ne; [done|]. intros ->. set_solver. }
  destruct (cols df !! "Star type") as [st|] eqn:Hst.
  - destruct (subscript_all_or_raise st) as [[es Hes]|(v & _ & _ & Hraise)].
    + rewrite (map_star_types_entries _ st es Hsame Hes).
      rewrite (map_star_types_entries df st es Hst Hes).
      by rewrite classified_setitem.
    + rewrite (map_star_types_key_error _ st v Hsame Hraise).
      by rewrite (map_star_types_key_error df st v Hst Hraise).
  - unfold map_star_types, getitem. by rewrite Hsame, Hst.
Qed.

Lemma map_star_types_overwrites_witness :
  map_star_types (setitem stars "Color" [VStr "pink"; VStr "pink"; VStr "pink"])
  = map_star_types stars.
Proof.
  apply (map_star_types_overwrites stars "Color"). set_solver.
Defined.

(** ** Further results: what the pipeline reads *)

Lemma getitem_agree_on (cs : list string) (df1 df2 : DataFrame) (c : string) :
  agree_on cs df1 df2 → c ∈ cs → getitem df1 c = getitem df2 c.
Proof. intros H Hc. unfold getitem. by rewrite (H c Hc). Qed.

Lemma loc_mask_agree_on (cs : list string) (df1 df2 : DataFrame) (mask : list bool) :
  agree_on cs df1 df2 → agree_on cs (loc_mask df1 mask) (loc_mask df2 mask).
Proof. intros H c Hc. simpl. by rewrite !lookup_fmap, (H c Hc). Qed.

Lemma scatter_group_agree_on (df1 df2 : DataFrame) (sc : value * value) :
  agree_on plotted_columns df1 df2 → scatter_group df1 sc = scatter_group df2 sc.
Proof.
  intros Hsame. unfold scatter_group. destruct sc as [s_type color].
  assert (∀ c, c ∈ plotted_columns → c ∈ plotted_columns) as Hin by done.
  rewrite <- (getitem_agree_on _ df1 df2 "Star type label" Hsame)
    by (unfold plotted_columns; set_solver).
  destruct (getitem df1 "Star type label") as [labels|] eqn:Hg; [|done].
  rewrite !bind_Ok.
  assert (cols df1 !! "Star type label" = Some labels) as Hl.
  { unfold getitem in Hg. destruct (cols df1 !! "Star type label"); congruence. }
  assert (cols df2 !! "Star type label" = Some labels) as Hl2.
  { rewrite <- Hl. symmetry. apply Hsame. unfold plotted_columns. set_solver. }
  pose proof (loc_mask_agree_on _ df1 df2 (eq_mask labels s_type) Hsame) as Hsub.
  assert (empty (loc_mask df1 (eq_mask labels s_type))
          = empty (loc_mask df2 (eq_mask labels s_type))) as ->.
  { unfold empty. cbn [nrows cols loc_mask]. f_equal.
    rewrite !bool_decide_eq_false_2; [done| |].
    - intros Hempty.
      assert ((select (eq_mask labels s_type) <$> cols df2) !! "Star type label" = None)
        as Hnone by (by rewrite Hempty).
      by rewrite lookup_fmap, Hl2 in Hnone.
    - intros Hempty.
      assert ((select (eq_mask labels s_type) <$> cols df1) !! "Star type label" = None)
        as Hnone by (by rewrite Hempty).
      by rewrite lookup_fmap, Hl in Hnone. }
  destruct (empty _); [done|].
  rewrite !(getitem_agree_on _ _ _ _ Hsub) by (unfold plotted_columns; set_solver).
  done.
Qed.

Lemma plot_hr_diagram_agree_on (df1 df2 : DataFrame) :
  agree_on plotted_columns df1 df2 → plot_hr_diagram df1 = plot_hr_diagram df2.
Proof.
  intros Hsame.
  assert (scatter_loop df1 = scatter_loop df2) as Hloop.
  { unfold scatter_loop.
    rewrite !(getitem_agree_on _ df1 df2 _ Hsame) by (unfold plotted_columns; set_solver).
    destruct (getitem df2 "Star type label"); [|done].
    destruct (getitem df2 "Color"); [|done].
    rewrite !bind_Ok. apply for_each_ext.
    intros sc. by apply scatter_group_agree_on. }
  unfold plot_hr_diagram. rewrite Hloop.
  by rewrite !(getitem_agree_on _ df1 df2 _ Hsame) by (unfold plotted_columns; set_solver).
Qed.

(** X7. The Classifier and the Renderer together read three columns of
    the upload and nothing else: two frames with the same 'Star type',
    'Temperature (K)' and 'Absolute magnitude(Mv)' cells end the same way and,
    when a figure is returned, give the same figure, whatever their other
    columns ('Spectral Class', 'Luminosity(L/Lo)', any further column, or a
    label, size or color column of their own) and their row counts say. *)
Theorem pipeline_reads_three_columns (df1 df2 : DataFrame) :
  agree_on input_columns df1 df2 →
  (map_star_types df1 ≫= plot_hr_diagram) = (map_star_types df2 ≫= plot_hr_diagram).
Proof.
  intros Hsame.
  pose proof (Hsame "Star type" ltac:(unfold input_columns; set_solver)) as Hst.
  pose proof (Hsame "Temperature (K)" ltac:(unfold input_columns; set_solver)) as Ht.
  pose proof (Hsame "Absolute magnitude(Mv)" ltac:(unfold input_columns; set_solver)) as Hm.
  destruct (cols df1 !! "Star type") as [st|] eqn:Hst1.
  - symmetry in Hst.
    destruct (subscript_all_or_raise st) as [[es Hes]|(v & _ & _ & Hraise)].
    + rewrite (map_star_types_entries df1 st es Hst1 Hes).
      rewrite (map_star_types_entries df2 st es Hst Hes).
      rewrite !bind_Ok. apply plot_hr_diagram_agree_on.
      intros c Hc. rewrite !classified_lookup.
      repeat case_decide; try done.
      unfold plotted_columns in Hc. set_solver.
    + rewrite (map_star_types_key_error df1 st v Hst1 Hraise).
      by rewrite (map_star_types_key_error df2 st v Hst Hraise).
  - unfold map_star_types, getitem. by rewrite Hst1, <- Hst.
Qed.

Lemma pipeline_reads_three_columns_witness :
  (map_star_types stars ≫= plot_hr_diagram)
  = (map_star_types stars_extra ≫= plot_hr_diagram).
Proof.
  apply (pipeline_reads_three_columns stars stars_extra).
  intros c Hc. apply list_elem_of_In in Hc. simpl in Hc.
  destruct Hc as [<-|[<-|[<-|[]]]]; vm_compute; reflexivity.
Defined.

(** ** Further results: the scatter series *)

Lemma sum_indicator (d : list (string * Z * string)) (x : string * Z * string) :
  NoDup d →
  sum_list ((λ e, if decide (x = e) then 1 else 0)%nat <$> d)
  = (if decide (x ∈ d) then 1 else 0)%nat.
Proof.
  induction 1 as [|y d Hy Hd IH]; [done|].
  rewrite fmap_cons. cbn [sum_list sum_list_with]. 
  change (sum_list_with id ?l) with (sum_list l). rewrite IH.
  destruct (decide (x = y)) as [->|Hne].
  - rewrite decide_False by done. rewrite decide_True by left. done.
  - destruct (decide (x ∈ d)) as [Hin|Hnin].
    + rewrite decide_True by (by right). done.
    + rewrite decide_False; [done|]. set_solver.
Qed.

(** Counting the rows entry by entry counts every row once. *)
Lemma count_partition (d es : list (string * Z * string)) :
  NoDup d → (∀ e, e ∈ es → e ∈ d) →
  sum_list ((λ e, length (filter (λ x, x = e) es)) <$> d) = length es.
Proof.
  intros Hd. induction es as [|x es IH]; intros Hsub.
  - induction d as [|y d IHd]; [done|].
    rewrite fmap_cons. cbn [sum_list sum_list_with].
    change (sum_list_with id ?l) with (sum_list l).
    rewrite IHd; [done|by apply NoDup_cons in Hd as [_ ?]|set_solver].
  - assert (sum_list ((λ e, length (filter (λ y, y = e) (x :: es))) <$> d)
            = (sum_list ((λ e, if decide (x = e) then 1 else 0)%nat <$> d)
               + sum_list ((λ e, length (filter (λ y, y = e) es)) <$> d))%nat) as ->.
    { clear. induction d as [|y d IHd]; [done|].
      rewrite !fmap_cons. cbn [sum_list sum_list_with].
      change (sum_list_with id ?l) with (sum_list l).
      rewrite IHd, filter_cons.
      destruct (decide (x = y)); simpl; lia. }
    rewrite sum_indicator by done.
    rewrite decide_True by (apply Hsub; left).
    rewrite IH by (intros e He; apply Hsub; by right).
    done.
Qed.

(** X8. On a classified dataset every row is drawn once: each series of
    the loop has at least one point, and the point counts of the series add up
    to the number of rows. *)
Theorem scatter_series_partition (df : DataFrame) (st temps mvs : Series) (codes : list Z) :
  wf_frame df →
  cols df !! "Star type" = Some st →
  cols df !! "Temperature (K)" = Some temps →
  cols df !! "Absolute magnitude(Mv)" = Some mvs →
  Forall2 has_code st codes →
  Forall (λ c, 0 ≤ c ≤ 5) codes →
  ∃ df' series,
    map_star_types df = Ok df' ∧
    scatter_loop df' = Ok series ∧
    Forall (λ c, (0 < points c)%nat) series ∧
    sum_list (points <$> series) = nrows df.
Proof.
  intros Hwf Hst Ht Hm Hcodes Hrange.
  destruct (classify_and_scatter df st temps mvs codes) as
    (es & Hlen & Htab & Hcl & _ & _ & Hloop); try done.
  pose proof (Hwf _ _ Hst) as Hlst. pose proof (Hwf _ _ Ht) as Hlt.
  simpl in Hlst, Hlt.
  pose proof (dedup_from_spec [] es) as [Hnd Hmem].
  assert (∀ e, e ∈ es →
            points (scatter_of (item0 <$> es) temps mvs e)
            = length (filter (λ x, x = e) es)) as Hpoints.
  { intros e He. unfold scatter_of, points.
    rewrite length_rows_with by (rewrite length_fmap; congruence).
    rewrite <- (length_rows_with _ _ (item0 <$> es)) by done.
    rewrite (rows_with_field item0 es e Htab (proj1 (Forall_forall _ _) Htab e He)).
    by rewrite length_fmap. }
  exists (classified df es), (scatter_of (item0 <$> es) temps mvs <$> dedup_from [] es).
  split; [done|]. split; [done|]. split.
  - apply Forall_fmap, Forall_forall. intros e He.
    change (0 < points (scatter_of (item0 <$> es) temps mvs e))%nat.
    apply Hmem in He as [He _]. rewrite (Hpoints e He).
    assert (e ∈ filter (λ x, x = e) es) as Hin by (by apply list_elem_of_filter).
    destruct (filter (λ x, x = e) es); [by apply elem_of_nil in Hin|simpl; lia].
  - rewrite <- list_fmap_compose.
    rewrite (list_fmap_ext _ (λ e, length (filter (λ x, x = e) es)) (dedup_from [] es)).
    + rewrite count_partition; [congruence|done|].
      intros e He. apply Hmem. split; [done|apply not_elem_of_nil].
    + intros i e He.
      change (points (scatter_of (item0 <$> es) temps mvs e)
              = length (filter (λ x, x = e) es)).
      apply Hpoints.
      apply list_elem_of_lookup_2 in He. apply Hmem in He. tauto.
Qed.

Lemma scatter_series_partition_witness :
  ∃ df' series,
    map_star_types stars = Ok df' ∧
    scatter_loop df' = Ok series ∧
    sum_list (points <$> series) = 3%nat.
Proof.
  destruct (scatter_series_partition stars
              [VInt 3; VInt 0; VInt 3]
              [VInt 5778; VInt 3000; VInt 9000]
              [VFloat (483 # 100); VFloat 10; VFloat 1]
              [3; 0; 3])
    as (df' & series & Hcl & Hloop & _ & Hsum).
  - apply (bool_decide_unpack (wf_frame stars)). vm_compute. exact I.
  - vm_compute. reflexivity.
  - vm_compute. reflexivity.
  - vm_compute. reflexivity.
  - repeat constructor.
  - repeat constructor; lia.
  - by exists df', series.
Defined.

(** X9. In the frame the Classifier returns, two rows have the same label
    exactly when they have the same color, and rows with the same label have
    the same marker size: pairing the distinct labels with the distinct
    colors in order pairs each label with its own color, and the marker size
    of the first row of a group is that of every row of the group. *)
Theorem classified_rows_consistent (df : DataFrame) (st : Series) (codes : list Z) :
  cols df !! "Star type" = Some st →
  Forall2 has_code st codes →
  Forall (λ c, 0 ≤ c ≤ 5) codes →
  ∃ df' labels sizes colors,
    map_star_types df = Ok df' ∧
    cols df' !! "Star type label" = Some labels ∧
    cols df' !! "Marker size" = Some sizes ∧
    cols df' !! "Color" = Some colors ∧
    ∀ i j li lj,
      labels !! i = Some li → labels !! j = Some lj →
      (li = lj ↔ colors !! i = colors !! j) ∧
      (li = lj → sizes !! i = sizes !! j).
Proof.
  intros Hst Hcodes Hrange.
  destruct (entries_of_codes st codes Hcodes Hrange) as (es & Hes & _).
  pose proof (entries_in_table _ _ Hes) as Htab. rewrite Forall_forall in Htab.
  exists (classified df es), (item0 <$> es), (item1 <$> es), (item2 <$> es).
  split; [by eapply map_star_types_entries|].
  rewrite !classified_lookup. simpl. do 3 (split; [done|]).
  intros i j li lj. rewrite !list_lookup_fmap.
  destruct (es !! i) as [ei|] eqn:Hi; [|done].
  destruct (es !! j) as [ej|] eqn:Hj; [|done].
  simpl. intros [= <-] [= <-].
  assert (in_table ei) as Hei by (eapply Htab, list_elem_of_lookup_2, Hi).
  assert (in_table ej) as Hej by (eapply Htab, list_elem_of_lookup_2, Hj).
  split; [split|].
  - intros Heq. by rewrite (item0_inj ei ej Hei Hej Heq).
  - intros [= Heq]. rewrite (item2_inj ei ej Hei Hej); [done|].
    unfold item2. by rewrite Heq.
  - intros Heq. by rewrite (item0_inj ei ej Hei Hej Heq).
Qed.

Lemma classified_rows_consistent_witness :
  ∃ df' labels, map_star_types stars = Ok df'
    ∧ cols df' !! "Star type label" = Some labels.
Proof.
  destruct (classified_rows_consistent stars [VInt 3; VInt 0; VInt 3] [3; 0; 3])
    as (df' & labels & sizes & colors & Hcl & Hl & _).
  - vm_compute. reflexivity.
  - repeat constructor.
  - repeat constructor; lia.
  - by exists df', labels.
Defined.

(** ** Further results: how the Renderer ends *)

(** X10. When the star types are all in the table but a cell of
    'Temperature (K)' or of 'Absolute magnitude(Mv)' is text, the Classifier
    returns and the Renderer raises [TypeError]: no figure is returned. *)
Theorem renderer_text_type_error (df : DataFrame) (st temps mvs : Series) (codes : list Z) :
  cols df !! "Star type" = Some st →
  cols df !! "Temperature (K)" = Some temps →
  cols df !! "Absolute magnitude(Mv)" = Some mvs →
  Forall2 has_code st codes →
  Forall (λ c, 0 ≤ c ≤ 5) codes →
  has_text temps || has_text mvs = true →
  ∃ df', map_star_types df = Ok df' ∧ plot_hr_diagram df' = Raise TypeError.
Proof.
  intros Hst Ht Hm Hcodes Hrange Htext.
  destruct (classify_and_scatter df st temps mvs codes) as
    (es & _ & _ & Hcl & Ht' & Hm' & Hloop); try done.
  exists (classified df es). split; [done|].
  by eapply plot_hr_diagram_text.
Qed.

Lemma renderer_text_type_error_witness :
  ∃ df', map_star_types stars_text = Ok df' ∧ plot_hr_diagram df' = Raise TypeError.
Proof.
  apply (renderer_text_type_error stars_text
           [VInt 3; VInt 0; VInt 3]
           [VStr "5778K"; VStr "3000K"; VStr "9000K"]
           [VFloat (483 # 100); VFloat 10; VFloat 1]
           [3; 0; 3]).
  - vm_compute. reflexivity.
  - vm_compute. reflexivity.
  - vm_compute. reflexivity.
  - repeat constructor.
  - repeat constructor; lia.
  - reflexivity.
Defined.

(** X11. When the star types are all in the table and no cell is text,
    but every temperature is missing or every magnitude is missing (as in a
    file without rows), the Renderer raises [ValueError] at the axis limits:
    no figure is returned. *)
Theorem renderer_no_number_value_error (df : DataFrame) (st temps mvs : Series)
    (codes : list Z) :
  cols df !! "Star type" = Some st →
  cols df !! "Temperature (K)" = Some temps →
  cols df !! "Absolute magnitude(Mv)" = Some mvs →
  Forall2 has_code st codes →
  Forall (λ c, 0 ≤ c ≤ 5) codes →
  has_text temps = false → has_text mvs = false →
  numbers temps = [] ∨ numbers mvs = [] →
  ∃ df', map_star_types df = Ok df' ∧ plot_hr_diagram df' = Raise ValueError.
Proof.
  intros Hst Ht Hm Hcodes Hrange Htt Hmt Hnone.
  destruct (classify_and_scatter df st temps mvs codes) as
    (es & _ & _ & Hcl & Ht' & Hm' & Hloop); try done.
  exists (classified df es). split; [done|].
  by eapply plot_hr_diagram_all_missing.
Qed.

Lemma renderer_no_number_value_error_witness :
  ∃ df', map_star_types stars_blank = Ok df' ∧ plot_hr_diagram df' = Raise ValueError.
Proof.
  apply (renderer_no_number_value_error stars_blank
           [VInt 3; VInt 4] [VNaN; VNaN] [VFloat 5; VFloat 6] [3; 4]).
  - vm_compute. reflexivity.
  - vm_compute. reflexivity.
  - vm_compute. reflexivity.
  - repeat constructor.
  - repeat constructor; lia.
  - reflexivity.
  - reflexivity.
  - left. reflexivity.
Defined.

(** X12. When the star types are all in the table, no cell of the
    temperatures and magnitudes is text, each of the two columns has at
    least one cell that is not missing, the temperatures that are there are
    of magnitude at most 1e308 and the magnitudes that are there of magnitude
    at most 1e15, the Renderer returns a figure, and the missing cells are
    skipped: the limits passed to [set_xlim] are the binary64 products of the
    largest of the temperatures that are there with 1.1 and of the smallest
    with 0.9, the limits passed to [set_ylim] the largest of the magnitudes
    that are there plus 1 and the smallest minus 1, in machine arithmetic. *)
Theorem renderer_skips_missing (df : DataFrame) (st temps mvs : Series) (codes : list Z) :
  cols df !! "Star type" = Some st →
  cols df !! "Temperature (K)" = Some temps →
  cols df !! "Absolute magnitude(Mv)" = Some mvs →
  Forall2 has_code st codes →
  Forall (λ c, 0 ≤ c ≤ 5) codes →
  has_text temps = false → has_text mvs = false →
  numbers temps ≠ [] → numbers mvs ≠ [] →
  Forall (bounded big) (numbers temps) →
  Forall (bounded small) (numbers mvs) →
  ∃ df' fig (hottest coolest faintest brightest left right bottom top : value),
    map_star_types df = Ok df' ∧
    plot_hr_diagram df' = Ok fig ∧
    is_max hottest (numbers temps) ∧ is_min coolest (numbers temps) ∧
    is_max faintest (numbers mvs) ∧ is_min brightest (numbers mvs) ∧
    mul_float hottest (11 # 10) = Ok (Fin left) ∧
    mul_float coolest (9 # 10) = Ok (Fin right) ∧
    add_int faintest 1 = Ok (Fin bottom) ∧
    add_int brightest (-1) = Ok (Fin top) ∧
    xlim_of (ax fig) = Some (left, right) ∧
    ylim_of (ax fig) = Some (bottom, top).
Proof.
  intros Hst Ht Hm Hcodes Hrange Htt Hmt Htne Hmne Htb Hmb.
  destruct (classify_and_scatter df st temps mvs codes) as
    (es & _ & _ & Hcl & Ht' & Hm' & Hloop); try done.
  destruct (plot_hr_diagram_skipna _ _ temps mvs Hloop)
    as (tmin & tmax & mmin & mmax & Ha & Hb & Hc & Hd & Hplot); try done.
  { eapply Forall_impl; [exact Hmb|]. apply bounded_small_big. }
  pose proof (scatter_loop_scatter _ _ Hloop) as Hsc.
  eexists (classified df es), _,
    (reduce value_max (numbers temps)), (reduce value_min (numbers temps)),
    (reduce value_max (numbers mvs)), (reduce value_min (numbers mvs)),
    tmax, tmin, mmax, mmin.
  split; [done|]. split; [exact Hplot|].
  split; [by apply reduce_max_spec|]. split; [by apply reduce_min_spec|].
  split; [by apply reduce_max_spec|]. split; [by apply reduce_min_spec|].
  do 4 (split; [done|]).
  split.
  - cbn [ax figure_of]. unfold primary_calls, xlim_of. skip_scatters Hsc. reflexivity.
  - cbn [ax figure_of]. unfold primary_calls, ylim_of. skip_scatters Hsc. reflexivity.
Qed.

Lemma renderer_skips_missing_witness :
  ∃ df' fig hottest left right,
    map_star_types stars_gaps = Ok df' ∧
    plot_hr_diagram df' = Ok fig ∧
    is_max hottest [VInt 5778; VInt 9000] ∧
    mul_float hottest (11 # 10) = Ok (Fin left) ∧
    xlim_of (ax fig) = Some (left, right).
Proof.
  destruct (renderer_skips_missing stars_gaps
              [VInt 3; VInt 0; VInt 3]
              [VInt 5778; VNaN; VInt 9000]
              [VNaN; VFloat 10; VFloat 1]
              [3; 0; 3])
    as (df' & fig & hi & lo & _ & _ & left & right & _ & _
        & Hcl & Hplot & Hmax & _ & _ & _ & Hl & _ & _ & _ & Hlim & _).
  - vm_compute. reflexivity.
  - vm_compute. reflexivity.
  - vm_compute. reflexivity.
  - repeat constructor.
  - repeat constructor; lia.
  - reflexivity.
  - reflexivity.
  - vm_compute. discriminate.
  - vm_compute. discriminate.
  - repeat constructor; qconst.
  - repeat constructor; qconst.
  - by exists df', fig, hi, left, right.
Defined.

(** Every figure the Renderer returns, with its four limits. *)
Lemma plot_hr_diagram_shape_finite (df : DataFrame) (fig : Figure) :
  plot_hr_diagram df = Ok fig →
  ∃ series temp_min temp_max mv_min mv_max,
    scatter_loop df = Ok series ∧
    finite temp_min ∧ finite temp_max ∧ finite mv_min ∧ finite mv_max ∧
    fig = figure_of series temp_min temp_max mv_min mv_max.
Proof.
  unfold plot_hr_diagram, create_spectral_class_axis. intros H.
  destruct (scatter_loop df) as [series|]; [rewrite bind_Ok in H|discriminate H].
  repeat match type of H with
  | context [create_luminosity_axis _] => rewrite create_luminosity_axis_calls in H
  | context [if ?b then _ else _] => destruct b eqn:?; [|discriminate H]
  | context [Ok _ ≫= _] => rewrite bind_Ok in H
  | context [(?a, ?b).1] => change ((a, b).1) with a in H
  | context [(?a, ?b).2] => change ((a, b).2) with b in H
  | context [set_xlim (Fin _) (Fin _)] => rewrite set_xlim_Fin in H
  | context [set_ylim (Fin _) (Fin _)] => rewrite set_ylim_Fin in H
  | (set_xlim ?a ?b ≫= _) = Ok _ => destruct a, b; try discriminate H
  | (set_ylim ?a ?b ≫= _) = Ok _ => destruct a, b; try discriminate H
  | (?m ≫= _) = Ok _ => destruct m; [|discriminate H]
  end.
  injection H as <-.
  repeat match goal with
  | Hf : _ && _ = true |- _ => apply andb_true_iff in Hf as [?%Is_true_true ?%Is_true_true]
  end.
  eexists _, _, _, _, _. repeat split; try eassumption; reflexivity.
Qed.

(** X13. In every figure the Renderer returns, the four limits it has set
    on the primary axes are finite numbers, the spectral-class axis has been
    given the two horizontal limits of the primary axis in the opposite order
    and then inverted, both horizontal scales are logarithmic requests on
    their own axes, and the luminosity axis has the fixed limits 10^-6 and
    10^6 whatever the data. *)
Theorem figure_axes_consistent (df : DataFrame) (fig : Figure) :
  plot_hr_diagram df = Ok fig →
  ∃ left right bottom top,
    finite left ∧ finite right ∧ finite bottom ∧ finite top ∧
    xlim_of (ax fig) = Some (left, right) ∧
    ylim_of (ax fig) = Some (bottom, top) ∧
    xlim_of (ax2 fig) = Some (right, left) ∧
    last (ax2 fig) = Some InvertXaxis ∧
    SetXscale Log ∈ ax fig ∧ SetXscale Log ∈ ax2 fig ∧
    ylim_of (ax3 fig) = Some (VFloat (1 # 1000000), VFloat 1000000).
Proof.
  intros Hplot.
  destruct (plot_hr_diagram_shape_finite df fig Hplot)
    as (series & tmin & tmax & mmin & mmax & Hloop & Ha & Hb & Hc & Hd & ->).
  pose proof (scatter_loop_scatter _ _ Hloop) as Hsc.
  exists tmax, tmin, mmax, mmin.
  do 4 (split; [done|]).
  split.
  { cbn [ax figure_of]. unfold primary_calls, xlim_of. skip_scatters Hsc. reflexivity. }
  split.
  { cbn [ax figure_of]. unfold primary_calls, ylim_of. skip_scatters Hsc. reflexivity. }
  split; [reflexivity|]. split; [reflexivity|].
  split; [|split; [|reflexivity]].
  - cbn [ax figure_of]. unfold primary_calls. rewrite elem_of_app. right.
    apply list_elem_of_In. simpl. tauto.
  - cbn [ax2 figure_of]. apply list_elem_of_In. simpl. tauto.
Qed.

Lemma figure_axes_consistent_witness :
  ∃ fig left right,
    plot_hr_diagram
      (classified stars [("Main Sequence", 50, "blue"); ("Red Dwarf", 30, "red");
                         ("Main Sequence", 50, "blue")]) = Ok fig ∧
    xlim_of (ax fig) = Some (left, right) ∧
    xlim_of (ax2 fig) = Some (right, left).
Proof.
  assert (∃ fig,
    plot_hr_diagram
      (classified stars [("Main Sequence", 50, "blue"); ("Red Dwarf", 30, "red");
                         ("Main Sequence", 50, "blue")]) = Ok fig) as [fig Hfig].
  { eexists. vm_compute. reflexivity. }
  destruct (figure_axes_consistent _ fig Hfig)
    as (l & r & b & t & _ & _ & _ & _ & Hx & _ & Hx2 & _).
  exists fig, l, r. split; [exact Hfig|]. split; [exact Hx|exact Hx2].
Defined.

(** ** Further results: whole runs *)

(** X14. When the upload passes the Loader but some cell of 'Star type'
    carries no code of the table (a code outside 0..5, a fractional number, a
    missing value or text), the run ends with the [KeyError] of the first
    such cell in row order: the Renderer is not entered and nothing, neither
    a message nor a figure, is put on the page. *)
Theorem lookup_failure_ends_run (UploadedFile : Type)
    (read_csv : UploadedFile → string + DataFrame)
    (f : UploadedFile) (df : DataFrame) (st : Series) (s : session) :
  read_csv f = inr df →
  forallb (has_column df) required_columns = true →
  cols df !! "Star type" = Some st →
  ¬ Forall table_cell st →
  ∃ good k rest,
    st = good ++ k :: rest ∧ Forall table_cell good ∧ ¬ table_cell k ∧
    main UploadedFile read_csv (Some f) s =
      (Raise (KeyError k), emit s [] [LoadData; MapStarTypes]).
Proof.
  intros Hread Hcheck Hst Hbad.
  destruct (subscript_first_failure st)
    as [[es Hes]|(good & k & rest & Heq & Hgood & Hk & Hraise)].
  - exfalso. apply Hbad, Forall_forall.
    intros v [i Hi]%list_elem_of_lookup.
    destruct (Forall2_lookup_l _ _ _ _ _ Hes Hi) as (e & _ & He).
    apply subscript_Ok_iff. eauto.
  - exists good, k, rest. do 3 (split; [done|]).
    rewrite main_cases, Hread, Hcheck.
    by rewrite (map_star_types_key_error df st k Hst Hraise).
Qed.

Lemma lookup_failure_ends_run_witness :
  ∃ k, main unit (parsed_as type_six) (Some tt) fresh =
         (Raise (KeyError k), emit fresh [] [LoadData; MapStarTypes]).
Proof.
  destruct (lookup_failure_ends_run unit (parsed_as type_six) tt type_six [VInt 6] fresh)
    as (good & k & rest & _ & _ & _ & Hrun).
  - reflexivity.
  - vm_compute. reflexivity.
  - vm_compute. reflexivity.
  - intros Hall. apply Forall_cons in Hall as [(c & Hc & Hr) _].
    injection Hc as <-. lia.
  - by exists k.
Defined.

(** X15. When the upload passes the Loader, every star type is in the
    table, no temperature or magnitude is text, each of the two columns has a
    cell that is not missing and the numbers in them are of magnitude at most
    1e308, the run returns and puts exactly one element on the page: the
    figure the Renderer returned for the classified frame, after the three
    stages were entered in order. *)
Theorem main_shows_figure (UploadedFile : Type)
    (read_csv : UploadedFile → string + DataFrame)
    (f : UploadedFile) (df : DataFrame) (st temps mvs : Series) (codes : list Z)
    (s : session) :
  read_csv f = inr df →
  forallb (has_column df) required_columns = true →
  cols df !! "Star type" = Some st →
  cols df !! "Temperature (K)" = Some temps →
  cols df !! "Absolute magnitude(Mv)" = Some mvs →
  Forall2 has_code st codes →
  Forall (λ c, 0 ≤ c ≤ 5) codes →
  has_text temps = false → has_text mvs = false →
  numbers temps ≠ [] → numbers mvs ≠ [] →
  Forall (bounded big) (numbers temps) →
  Forall (bounded big) (numbers mvs) →
  ∃ df' fig,
    map_star_types df = Ok df' ∧
    plot_hr_diagram df' = Ok fig ∧
    main UploadedFile read_csv (Some f) s =
      (Ok tt, emit s [StPyplot fig] [LoadData; MapStarTypes; PlotHrDiagram]).
Proof.
  intros Hread Hcheck Hst Ht Hm Hcodes Hrange Htt Hmt Htne Hmne Htb Hmb.
  destruct (classify_and_scatter df st temps mvs codes) as
    (es & _ & _ & Hcl & Ht' & Hm' & Hloop); try done.
  destruct (plot_hr_diagram_skipna _ _ temps mvs Hloop)
    as (tmin & tmax & mmin & mmax & _ & _ & _ & _ & Hplot); try done.
  eexists _, _. split; [exact Hcl|]. split; [exact Hplot|].
  by rewrite main_cases, Hread, Hcheck, Hcl, Hplot.
Qed.

Lemma main_shows_figure_witness :
  ∃ fig, main unit (parsed_as stars_gaps) (Some tt) fresh =
           (Ok tt, emit fresh [StPyplot fig] [LoadData; MapStarTypes; PlotHrDiagram]).
Proof.
  destruct (main_shows_figure unit (parsed_as stars_gaps) tt stars_gaps
              [VInt 3; VInt 0; VInt 3]
              [VInt 5778; VNaN; VInt 9000]
              [VNaN; VFloat 10; VFloat 1]
              [3; 0; 3] fresh)
    as (df' & fig & _ & _ & Hrun).
  - reflexivity.
  - vm_compute. reflexivity.
  - vm_compute. reflexivity.
  - vm_compute. reflexivity.
  - vm_compute. reflexivity.
  - repeat constructor.
  - repeat constructor; lia.
  - reflexivity.
  - reflexivity.
  - vm_compute. discriminate.
  - vm_compute. discriminate.
  - repeat constructor; qconst.
  - repeat constructor; qconst.
  - by exists fig.
Defined.

(** X16. Every upload that passes the Loader with no row, whatever its
    further columns, ends the same way: the Classifier returns a frame whose
    derived columns are empty, the loop of the Renderer draws nothing, the
    Renderer raises [ValueError] at the limits, and the run ends with that
    exception and nothing on the page. *)
Theorem empty_upload_ends_run (UploadedFile : Type)
    (read_csv : UploadedFile → string + DataFrame)
    (f : UploadedFile) (df : DataFrame) (s : session) :
  read_csv f = inr df →
  forallb (has_column df) required_columns = true →
  wf_frame df → nrows df = 0%nat →
  (∃ df', map_star_types df = Ok df'
     ∧ cols df' !! "Star type label" = Some []
     ∧ cols df' !! "Marker size" = Some []
     ∧ cols df' !! "Color" = Some []
     ∧ scatter_loop df' = Ok []
     ∧ plot_hr_diagram df' = Raise ValueError)
  ∧ main UploadedFile read_csv (Some f) s =
      (Raise ValueError, emit s [] [LoadData; MapStarTypes; PlotHrDiagram]).
Proof.
  intros Hread Hcheck Hwf Hrows.
  split; [|by apply (no_rows_uncaught UploadedFile read_csv f df)].
  assert (∀ col, col ∈ required_columns → cols df !! col = Some []) as Hcol.
  { intros col Hin. destruct (required_column df col Hcheck Hin) as [c Hc].
    pose proof (Hwf _ _ Hc) as Hlen. simpl in Hlen. rewrite Hrows in Hlen.
    apply length_zero_iff_nil in Hlen. by subst. }
  assert (cols df !! "Star type" = Some []) as Hst
    by (apply Hcol; unfold required_columns; set_solver).
  assert (cols df !! "Temperature (K)" = Some []) as Ht
    by (apply Hcol; unfold required_columns; set_solver).
  assert (cols df !! "Absolute magnitude(Mv)" = Some []) as Hm
    by (apply Hcol; unfold required_columns; set_solver).
  exists (classified df []).
  split; [by apply (map_star_types_entries df [] [] Hst); constructor|].
  rewrite !classified_lookup. simpl. do 3 (split; [done|]).
  assert (scatter_loop (classified df []) = Ok []) as Hloop
    by (by apply (scatter_loop_classified df [] [])).
  split; [done|].
  eapply plot_hr_diagram_no_rows; [done| |]; by rewrite classified_lookup.
Qed.

Lemma empty_upload_ends_run_witness :
  main unit (parsed_as header_only) (Some tt) fresh =
    (Raise ValueError, emit fresh [] [LoadData; MapStarTypes; PlotHrDiagram]).
Proof.
  refine (proj2 (empty_upload_ends_run unit (parsed_as header_only) tt header_only fresh
                   _ _ _ _)).
  - reflexivity.
  - vm_compute. reflexivity.
  - apply (bool_decide_unpack (wf_frame header_only)). vm_compute. exact I.
  - reflexivity.
Defined.
